(** * NetworkManager backend of the network-configuration generator (src/nm.c)

    A shallow embedding of [nm.c]: the device-specifier encoder
    [g_string_append_netdef_match], the keyfile renderer
    [write_nm_conf_access_point] / [write_nm_conf], and the exclusion
    aggregator [nd_append_non_nm_ids] / [write_nm_conf_finish].

    C strings are [string]; a nullable [char*] is [option string]; a
    [GString] under construction is the [string] built so far; a
    [GHashTable] is an association list kept in iteration order.  The
    file system, the process umask, the diagnostic stream and the global
    [udev_rules] buffer form an explicit [world] threaded through a small
    state-and-failure monad. *)

From Stdlib Require Import String Ascii List ZArith Lia Bool Permutation.
Import ListNotations.
Open Scope string_scope.
Open Scope Z_scope.

(** ** Data model (parse.h) *)

(** Modelled from the spec: the header [parse.h] that declares
    [netdef_type] is not part of the sources at hand.  The type is an
    integer enumeration in which "a threshold separates physical from
    virtual"; [nm.c] names [ND_ETHERNET], [ND_WIFI] (physical) and
    [ND_BRIDGE] (virtual) and compares against [ND_VIRTUAL]. *)
Definition netdef_type := Z.
Definition ND_NONE : netdef_type := 0.
Definition ND_ETHERNET : netdef_type := 1.
Definition ND_WIFI : netdef_type := 2.
Definition ND_VIRTUAL : netdef_type := 3.
Definition ND_BRIDGE : netdef_type := ND_VIRTUAL.

(** Modelled from the spec: [netdef_backend] of the missing [parse.h];
    "which management subsystem owns this definition". *)
Inductive netdef_backend : Type :=
| BACKEND_NONE
| BACKEND_NETWORKD
| BACKEND_NM.

Definition is_BACKEND_NM (b : netdef_backend) : bool :=
  match b with BACKEND_NM => true | _ => false end.

(** Modelled from the spec: [wifi_mode] of the missing [parse.h];
    "variant: infrastructure | ad-hoc | access-point". *)
Inductive wifi_mode : Type :=
| WIFI_MODE_INFRASTRUCTURE
| WIFI_MODE_ADHOC
| WIFI_MODE_AP.

(** Modelled from the spec: [wifi_access_point] of the missing [parse.h],
    with the fields [nm.c] reads. *)
Record wifi_access_point : Type := mk_ap {
  mode : wifi_mode;
  ssid : string;
  password : option string
}.

(** A [GHashTable] with string keys, as the list of its entries in the
    order in which an iterator visits them. *)
Definition GHashTable (V : Type) : Type := list (string * V).

Definition g_hash_table_size {V : Type} (t : GHashTable V) : nat := length t.

(** The [match] sub-structure of a definition. *)
Record netdef_match : Type := mk_match {
  driver : option string;
  mac : option string;
  original_name : option string
}.

(** Modelled from the spec: [net_definition] of the missing [parse.h],
    with the fields [nm.c] reads.  [nd_match] stands for the C field
    [match], a keyword here. *)
Record net_definition : Type := mk_netdef {
  type : netdef_type;
  backend : netdef_backend;
  id : string;
  wake_on_lan : bool;
  dhcp4 : bool;
  bridge : option string;
  has_match : bool;
  nd_match : netdef_match;
  set_name : option string;
  access_points : option (GHashTable wifi_access_point)
}.

(** ** C library helpers *)

Definition is_set {A : Type} (p : option A) : bool :=
  match p with Some _ => true | None => false end.

(** What [printf] puts for a ["%s"] argument (glibc and GLib print a null
    pointer as ["(null)"]). *)
Definition fmt_s (p : option string) : string :=
  match p with Some s => s | None => "(null)" end.

(** The GNU [a ?: b] on pointers. *)
Definition elvis {A : Type} (a b : option A) : option A :=
  match a with Some _ => a | None => b end.

(** [strpbrk (s, accept) != NULL]. *)
Fixpoint mem_ascii (c : ascii) (accept : string) : bool :=
  match accept with
  | EmptyString => false
  | String a rest => if Ascii.eqb c a then true else mem_ascii c rest
  end.

Fixpoint strpbrk (s accept : string) : bool :=
  match s with
  | EmptyString => false
  | String c rest => if mem_ascii c accept then true else strpbrk rest accept
  end.

(** [needle] occurs in [hay]. *)
Definition contains (needle hay : string) : Prop :=
  exists pre post, hay = pre ++ needle ++ post.

(** ** The specifier encoder *)

(** [g_string_append_netdef_match (s, def)]: the buffer [s] after the
    call, or [None] when one of its assertions fails. *)
Definition g_string_append_netdef_match (s : string) (def : net_definition)
  : option string :=
  if negb (negb (is_set (driver (nd_match def))) || is_set (set_name def))
  then None
  else
    match mac (nd_match def) with
    | Some m => Some (s ++ "mac:" ++ m)
    | None =>
      if is_set (original_name (nd_match def)) || is_set (set_name def)
         || (ND_VIRTUAL <=? type def)
      then
        Some (s ++ "interface-name:" ++
                (if ND_VIRTUAL <=? type def then id def
                 else fmt_s (elvis (set_name def)
                                   (original_name (nd_match def)))))
      else if type def =? ND_ETHERNET then Some (s ++ "type:ethernet")
      else None
    end.

(** The two characters C writes as escapes inside its string literals. *)
Definition nl : string := String "010"%char EmptyString.
Definition dq : string := String "034"%char EmptyString.

(** [type_str]: the NM ["type="] word, [None] when the assertion in the
    default branch fails. *)
Definition type_str (type : netdef_type) : option string :=
  if type =? ND_ETHERNET then Some "ethernet"
  else if type =? ND_WIFI then Some "wifi"
  else if type =? ND_BRIDGE then Some "bridge"
  else None.

(** [wifi_mode_str]: the NM wifi ["mode="] word.  The three constructors
    are the three cases of the switch; its default branch has no value of
    [wifi_mode] left to reach it. *)
Definition wifi_mode_str (mode : wifi_mode) : string :=
  match mode with
  | WIFI_MODE_INFRASTRUCTURE => "infrastructure"
  | WIFI_MODE_ADHOC => "adhoc"
  | WIFI_MODE_AP => "ap"
  end.

(** ** GLib's [g_uri_escape_string]

    Bytes outside the unreserved set become [%XX] with upper-case hex
    digits; with [allow_utf8], a well-formed UTF-8 sequence is copied as it
    is. *)

Definition byte_val (c : ascii) : Z := Z.of_N (N_of_ascii c).

Definition g_ascii_isalnum (c : ascii) : bool :=
  let n := byte_val c in
  ((48 <=? n) && (n <=? 57)) || ((65 <=? n) && (n <=? 90))
  || ((97 <=? n) && (n <=? 122)).

(** [is_valid] of gurifuncs.c: unreserved, or explicitly allowed. *)
Definition is_valid (c : ascii) (reserved_chars_allowed : option string) : bool :=
  g_ascii_isalnum c
  || Ascii.eqb c "-" || Ascii.eqb c "." || Ascii.eqb c "_" || Ascii.eqb c "~"
  || match reserved_chars_allowed with
     | Some r => mem_ascii c r
     | None => false
     end.

(** The table ["0123456789ABCDEF"]. *)
Definition hex (n : Z) : ascii :=
  if n <? 10 then ascii_of_N (Z.to_N (48 + n))
  else ascii_of_N (Z.to_N (55 + n)).

(** Continuation byte: [(c & 0xc0) == 0x80]. *)
Definition is_cont (c : ascii) : bool :=
  Z.land (byte_val c) 192 =? 128.

(** [g_utf8_skip]: length of a sequence by its lead byte. *)
Definition g_utf8_skip (c : ascii) : nat :=
  let n := byte_val c in
  if n <? 192 then 1%nat
  else if n <? 224 then 2%nat
  else if n <? 240 then 3%nat
  else if n <? 248 then 4%nat
  else if n <? 252 then 5%nat
  else if n <? 254 then 6%nat
  else 1%nat.

(** [g_utf8_get_char_validated (p, ...)] yields a character (neither -1
    nor -2): the bytes at [p] are a complete, shortest-form encoding of a
    code point below 0x110000 that is not a surrogate. *)
Definition utf8_char_ok (p : string) : bool :=
  match p with
  | String b0 (String b1 rest) =>
    let v0 := byte_val b0 in
    let v1 := Z.land (byte_val b1) 63 in
    if (192 <=? v0) && (v0 <? 224) then
      is_cont b1 && (128 <=? Z.land v0 31 * 64 + v1)
    else if (224 <=? v0) && (v0 <? 240) then
      match rest with
      | String b2 _ =>
        let wc := (Z.land v0 15 * 64 + v1) * 64 + Z.land (byte_val b2) 63 in
        is_cont b1 && is_cont b2 && (2048 <=? wc)
        && negb (Z.land wc 4294965248 =? 55296)
      | EmptyString => false
      end
    else if (240 <=? v0) && (v0 <? 248) then
      match rest with
      | String b2 (String b3 _) =>
        let wc := ((Z.land v0 7 * 64 + v1) * 64 + Z.land (byte_val b2) 63) * 64
                  + Z.land (byte_val b3) 63 in
        is_cont b1 && is_cont b2 && is_cont b3
        && (65536 <=? wc) && (wc <? 1114112)
      | _ => false
      end
    else false
  | _ => false
  end.

(** The loop of [g_string_append_uri_escaped]; [copy] counts the bytes of
    an accepted UTF-8 sequence that remain to be copied verbatim. *)
Fixpoint uri_escape_from (copy : nat) (reserved_chars_allowed : option string)
         (allow_utf8 : bool) (unescaped : string) : string :=
  match unescaped with
  | EmptyString => EmptyString
  | String c rest =>
    match copy with
    | S k => String c (uri_escape_from k reserved_chars_allowed allow_utf8 rest)
    | O =>
      if (128 <=? byte_val c) && allow_utf8 && utf8_char_ok unescaped then
        String c (uri_escape_from (Nat.pred (g_utf8_skip c))
                                  reserved_chars_allowed allow_utf8 rest)
      else if is_valid c reserved_chars_allowed then
        String c (uri_escape_from O reserved_chars_allowed allow_utf8 rest)
      else
        String "%" (String (hex (Z.shiftr (byte_val c) 4))
                   (String (hex (Z.land (byte_val c) 15))
                      (uri_escape_from O reserved_chars_allowed allow_utf8 rest)))
    end
  end.

Definition g_uri_escape_string (unescaped : string)
           (reserved_chars_allowed : option string) (allow_utf8 : bool) : string :=
  uri_escape_from O reserved_chars_allowed allow_utf8 unescaped.

(** Inverse of [hex] on hex digits, and the decoder of [%XX] escapes; used
    to show that escaping loses nothing. *)
Definition unhex (c : ascii) : Z :=
  let n := byte_val c in
  if n <? 58 then n - 48 else n - 55.

Fixpoint uri_unescape (s : string) : string :=
  match s with
  | EmptyString => EmptyString
  | String c rest =>
    if Ascii.eqb c "%" then
      match rest with
      | String h (String l rest') =>
        String (ascii_of_N (Z.to_N (unhex h * 16 + unhex l))) (uri_unescape rest')
      | _ => s
      end
    else String c (uri_unescape rest)
  end.

(** The first [k] bytes of [s] (as far as it reaches) are not ASCII. *)
Fixpoint high_bytes (k : nat) (s : string) : Prop :=
  match k, s with
  | S k', String c rest => 128 <= byte_val c /\ high_bytes k' rest
  | _, _ => True
  end.

(** ** The world the generator acts on *)

(** One file written below the root: where, what, and the process umask
    in force when it was created. *)
Record artifact : Type := mk_artifact {
  a_rootdir : option string;
  a_path : string;
  a_content : string;
  a_umask : Z
}.

(** A global [GString*]: null, pointing to a live buffer, or left
    pointing to a buffer that has been released. *)
Inductive gstring_ptr : Type :=
| GNull
| GLive (buf : string)
| GFreed.

Record world : Type := mk_world {
  w_files : list artifact;       (* files written so far, oldest first *)
  w_umask : Z;                   (* the process file-creation mask *)
  w_stderr : string;             (* what was printed to stderr *)
  udev_rules : gstring_ptr;      (* the global of nm.c *)
  w_writable : option string -> string -> bool
                                 (* can this path under this root be written *)
}.

Definition add_file (a : artifact) (w : world) : world :=
  mk_world (w_files w ++ [a]) (w_umask w) (w_stderr w) (udev_rules w) (w_writable w).

Definition set_umask (m : Z) (w : world) : world :=
  mk_world (w_files w) m (w_stderr w) (udev_rules w) (w_writable w).

Definition put_stderr (msg : string) (w : world) : world :=
  mk_world (w_files w) (w_umask w) (w_stderr w ++ msg) (udev_rules w) (w_writable w).

Definition set_udev_rules (p : gstring_ptr) (w : world) : world :=
  mk_world (w_files w) (w_umask w) (w_stderr w) p (w_writable w).

(** How a call ends: it returns, the process leaves through [exit], an
    assertion aborts it, a file cannot be written, or it touches released
    memory.  The world of [Aborted] is the one in which the assertion was
    evaluated: the report that GLib prints on stderr before it calls
    [abort] is not recorded, so that only the files and the mask of that
    world tell what the process has left behind. *)
Inductive outcome (A : Type) : Type :=
| Done (a : A) (w : world)
| Exited (status : Z) (w : world)
| Aborted (w : world)
| IOFailed (w : world)
| Undefined.

Arguments Done {A} a w.
Arguments Exited {A} status w.
Arguments Aborted {A} w.
Arguments IOFailed {A} w.
Arguments Undefined {A}.

Definition M (A : Type) : Type := world -> outcome A.

Definition ret {A : Type} (a : A) : M A := fun w => Done a w.

Definition bind {A B : Type} (c : M A) (k : A -> M B) : M B :=
  fun w =>
    match c w with
    | Done a w' => k a w'
    | Exited n w' => Exited n w'
    | Aborted w' => Aborted w'
    | IOFailed w' => IOFailed w'
    | Undefined => Undefined
    end.

Notation "x <- c ;; k" := (bind c (fun x => k))
  (at level 61, c at next level, right associativity).
Notation "c ;;; k" := (bind c (fun _ => k))
  (at level 61, right associativity).

(** [g_assert (expr)]; the world it stops in does not hold GLib's
    "assertion failed" report. *)
Definition g_assert (b : bool) : M unit :=
  fun w => if b then Done tt w else Aborted w.

(** A value whose computation may hit a failing assertion
    ([g_assert], [g_assert_not_reached]); again without GLib's report. *)
Definition asserted {A : Type} (o : option A) : M A :=
  fun w => match o with Some a => Done a w | None => Aborted w end.

Definition exit {A : Type} (status : Z) : M A := fun w => Exited status w.

Definition g_fprintf_stderr (msg : string) : M unit :=
  fun w => Done tt (put_stderr msg w).

(** [umask (mask)]: installs the permission bits of [mask], returns the
    previous mask. *)
Definition umask (mask : Z) : M Z :=
  fun w => Done (w_umask w) (set_umask (Z.land mask 511) w).

(** Modelled from the spec: [g_string_free_to_file] lives in [util.c],
    which is not among the sources.  It is the "artifact-writing
    primitive" that writes the buffer to [path] (followed by [suffix])
    "under an optional root prefix"; "I/O errors (cannot write artifact,
    permission denied) propagate as fatal". *)
Definition g_string_free_to_file (s : string) (rootdir : option string)
           (path : string) (suffix : option string) : M unit :=
  fun w =>
    let full := path ++ match suffix with Some x => x | None => "" end in
    if w_writable w rootdir full
    then Done tt (add_file (mk_artifact rootdir full s (w_umask w)) w)
    else IOFailed w.

(** ** The keyfile renderer *)

(** Lines 107-153 of [write_nm_conf_access_point]: the keyfile text up to
    and including the DHCP section. *)
Definition write_nm_conf_access_point_sections (def : net_definition)
           (ap : option wifi_access_point) : M string :=
  let s := "" in
  let s := s ++ "[connection]" ++ nl ++ "id=ubuntu-network-" ++ id def in
  let s := match ap with
           | Some a => s ++ "-" ++ ssid a
           | None => s
           end in
  t <- asserted (type_str (type def)) ;;
  let s := s ++ nl ++ "type=" ++ t ++ nl in
  s <- (if type def <? ND_VIRTUAL then
          match set_name def with
          | Some n => ret (s ++ "interface-name=" ++ n ++ nl)
          | None =>
            if negb (has_match def) then
              ret (s ++ "interface-name=" ++ id def ++ nl)
            else
              match original_name (nd_match def) with
              | Some n =>
                if strpbrk n "*[]?" then
                  g_fprintf_stderr
                    ("ERROR: " ++ id def ++
                     ": NetworkManager definitions do not support name globbing" ++ nl) ;;;
                  exit 1
                else ret (s ++ "interface-name=" ++ n ++ nl)
              | None => ret s
              end
          end
        else ret (s ++ "interface-name=" ++ id def ++ nl)) ;;
  let s := match bridge def with
           | Some b => s ++ "slave-type=bridge" ++ nl ++ "master=" ++ b ++ nl
           | None => s
           end in
  s <- (if type def <? ND_VIRTUAL then
          let s := s ++ nl ++ "[ethernet]" ++ nl ++ "wake-on-lan="
                     ++ (if wake_on_lan def then "1" else "0") ++ nl in
          match set_name def, mac (nd_match def) with
          | None, Some m =>
            s <- (if type def =? ND_ETHERNET then
                    ret (s ++ nl ++ "[802-3-ethernet]" ++ nl)
                  else if type def =? ND_WIFI then
                    ret (s ++ nl ++ "[802-11-wireless]" ++ nl)
                  else asserted None) ;;
            ret (s ++ "mac-address=" ++ m ++ nl)
          | _, _ => ret s
          end
        else ret s) ;;
  ret (if dhcp4 def then s ++ nl ++ "[ipv4]" ++ nl ++ "method=auto" ++ nl else s).

Definition system_connections : string :=
  "run/NetworkManager/system-connections/ubuntu-network-".

(** [write_nm_conf_access_point (def, rootdir, ap)]. *)
Definition write_nm_conf_access_point (def : net_definition)
           (rootdir : option string) (ap : option wifi_access_point) : M unit :=
  g_assert (if type def =? ND_WIFI then is_set ap else negb (is_set ap)) ;;;
  s <- write_nm_conf_access_point_sections def ap ;;
  let conf_path := system_connections ++ id def in
  let '(conf_path, s) :=
    match ap with
    | Some a =>
      let escaped_ssid := g_uri_escape_string (ssid a) None true in
      let conf_path := system_connections ++ id def ++ "-" ++ escaped_ssid in
      let s := match mode a with
               | WIFI_MODE_AP => s ++ nl ++ "[ipv4]" ++ nl ++ "method=shared" ++ nl
               | _ => s
               end in
      let s := s ++ nl ++ "[wifi]" ++ nl ++ "ssid=" ++ ssid a ++ nl
                 ++ "mode=" ++ wifi_mode_str (mode a) ++ nl in
      let s := match password a with
               | Some pw => s ++ nl ++ "[wifi-security]" ++ nl
                              ++ "key-mgmt=wpa-psk" ++ nl ++ "psk=" ++ pw ++ nl
               | None => s
               end in
      (conf_path, s)
    | None => (system_connections ++ id def, s)
    end in
  orig_umask <- umask 63 (* 077 *) ;;
  g_string_free_to_file s rootdir conf_path None ;;;
  _ <- umask orig_umask ;;
  ret tt.

(** The [while (g_hash_table_iter_next ...)] loop of [write_nm_conf]. *)
Fixpoint write_nm_conf_each (def : net_definition) (rootdir : option string)
         (aps : GHashTable wifi_access_point) : M unit :=
  match aps with
  | [] => ret tt
  | (_, ap) :: rest =>
    write_nm_conf_access_point def rootdir (Some ap) ;;;
    write_nm_conf_each def rootdir rest
  end.

(** [write_nm_conf (def, rootdir)].  The [g_debug] call prints nothing
    unless debugging output is asked for, and is left out. *)
Definition write_nm_conf (def : net_definition) (rootdir : option string) : M unit :=
  if negb (is_BACKEND_NM (backend def)) then ret tt
  else
    (if is_set (driver (nd_match def)) && negb (is_set (set_name def)) then
       g_fprintf_stderr
         ("ERROR: " ++ id def ++
          ": NetworkManager definitions do not support matching by driver" ++ nl) ;;;
       exit 1
     else ret tt) ;;;
    if type def =? ND_WIFI then
      g_assert (is_set (access_points def)) ;;;
      match access_points def with
      | Some aps => write_nm_conf_each def rootdir aps
      | None => ret tt
      end
    else
      g_assert (negb (is_set (access_points def))) ;;;
      write_nm_conf_access_point def rootdir None.

(** ** The exclusion aggregator *)

Definition udev_rule (drv : string) : string :=
  "ACTION==" ++ dq ++ "add|change" ++ dq ++ ", SUBSYSTEM==" ++ dq ++ "net" ++ dq
  ++ ", ENV{ID_NET_DRIVER}==" ++ dq ++ drv ++ dq
  ++ ", ENV{NM_UNMANAGED}=" ++ dq ++ "1" ++ dq ++ nl.

(** [nd_append_non_nm_ids (key, value, str)]: returns the buffer [str]
    after the call; the rules go to the global [udev_rules]. *)
Definition nd_append_non_nm_ids (key : string) (nd : net_definition)
           (str : string) : M string :=
  if negb (is_BACKEND_NM (backend nd)) then
    match driver (nd_match nd) with
    | Some drv =>
      fun w =>
        match udev_rules w with
        | GNull => Done str (set_udev_rules (GLive ("" ++ udev_rule drv)) w)
        | GLive buf => Done str (set_udev_rules (GLive (buf ++ udev_rule drv)) w)
        | GFreed => Undefined
        end
    | None =>
      s <- asserted (g_string_append_netdef_match str nd) ;;
      ret (s ++ ",")
    end
  else ret str.

(** [g_hash_table_foreach (table, func, user_data)] for a callback that
    updates the buffer passed as [user_data]. *)
Fixpoint g_hash_table_foreach {V : Type} (table : GHashTable V)
         (func : string -> V -> string -> M string) (str : string) : M string :=
  match table with
  | [] => ret str
  | (key, value) :: rest =>
    str' <- func key value str ;;
    g_hash_table_foreach rest func str'
  end.

Definition keyfile_header : string :=
  "[keyfile]" ++ nl ++ "# devices managed by networkd" ++ nl ++ "unmanaged-devices+=".

Definition conf_d_path : string := "run/NetworkManager/conf.d/ubuntu-network.conf".
Definition rules_d_path : string := "run/udev/rules.d/90-ubuntu-network.rules".

(** [write_nm_conf_finish (rootdir)]; the global table [netdefs] of
    [parse.c] is passed in. *)
Definition write_nm_conf_finish (netdefs : GHashTable net_definition)
           (rootdir : option string) : M unit :=
  if (g_hash_table_size netdefs =? 0)%nat then ret tt
  else
    let s := keyfile_header in
    let len := String.length s in
    s <- g_hash_table_foreach netdefs nd_append_non_nm_ids s ;;
    (if (len <? String.length s)%nat
     then g_string_free_to_file s rootdir conf_d_path None
     else ret tt) ;;;
    fun w =>
      match udev_rules w with
      | GNull => Done tt w
      | GLive buf =>
        match g_string_free_to_file buf rootdir rules_d_path None w with
        | Done _ w' => Done tt (set_udev_rules GFreed w')
        | other => other
        end
      | GFreed => Undefined
      end.

(** ** The exclusion plan, as the specification words it

    "For every definition whose backend is not this backend: if it has a
    driver match, emit a device-rule exclusion; otherwise encode its
    specifier and add it to the specifier-set exclusion."  Both
    collections are kept in the order in which the definitions are met. *)

Record ExclusionPlan : Type := mk_plan {
  specifier_set : list string;
  device_rules : list string     (* the excluded drivers *)
}.

Definition specifier_of (nd : net_definition) : list string :=
  if is_BACKEND_NM (backend nd) then []
  else match driver (nd_match nd) with
       | Some _ => []
       | None => match g_string_append_netdef_match "" nd with
                 | Some sp => [sp]
                 | None => []
                 end
       end.

Definition driver_of (nd : net_definition) : list string :=
  if is_BACKEND_NM (backend nd) then []
  else match driver (nd_match nd) with
       | Some drv => [drv]
       | None => []
       end.

Definition arbitrate (allDefinitions : GHashTable net_definition) : ExclusionPlan :=
  mk_plan (flat_map (fun kv => specifier_of (snd kv)) allDefinitions)
          (flat_map (fun kv => driver_of (snd kv)) allDefinitions).

(** Every specifier followed by a comma; every driver turned into its
    rule line. *)
Fixpoint comma_terminated (specs : list string) : string :=
  match specs with
  | [] => ""
  | sp :: rest => sp ++ "," ++ comma_terminated rest
  end.

Fixpoint rule_lines (drivers : list string) : string :=
  match drivers with
  | [] => ""
  | drv :: rest => udev_rule drv ++ rule_lines rest
  end.

(** "finish(exclusionPlan) -> zero or more Artifacts". *)
Definition finish (rootdir : option string) (mask : Z) (plan : ExclusionPlan)
  : list artifact :=
  match specifier_set plan with
  | [] => []
  | specs => [mk_artifact rootdir conf_d_path
                          (keyfile_header ++ comma_terminated specs) mask]
  end ++
  match device_rules plan with
  | [] => []
  | drvs => [mk_artifact rootdir rules_d_path (rule_lines drvs) mask]
  end.

(** ** Conditions on the input *)

(** The encoder's precondition, its first assertion. *)
Definition driver_needs_set_name (def : net_definition) : Prop :=
  driver (nd_match def) = None \/ set_name def <> None.

(** The name the renderer would bind to contains a glob character. *)
Definition name_globbed (def : net_definition) : bool :=
  negb (is_set (set_name def)) && has_match def
  && match original_name (nd_match def) with
     | Some n => strpbrk n "*[]?"
     | None => false
     end.

(** The standing invariant of the surrounding system: a definition that
    reaches the encoder's last branch is an ethernet one. *)
Definition has_specifier (nd : net_definition) : bool :=
  is_set (mac (nd_match nd)) || is_set (original_name (nd_match nd))
  || is_set (set_name nd) || (ND_VIRTUAL <=? type nd)
  || (type nd =? ND_ETHERNET).

Definition excludable (nd : net_definition) : bool :=
  is_BACKEND_NM (backend nd) || is_set (driver (nd_match nd)) || has_specifier nd.

(** The access points of a table are keyed by their SSID. *)
Definition keyed_by_ssid (aps : GHashTable wifi_access_point) : Prop :=
  NoDup (map fst aps) /\ Forall (fun kv => ssid (snd kv) = fst kv) aps.

(** Every write below [rootdir] succeeds. *)
Definition all_writable (rootdir : option string) (w : world) : Prop :=
  forall path, w_writable w rootdir path = true.

(** Decidable occurrence test, to refute [contains] on concrete text. *)
Fixpoint prefixb (p s : string) : bool :=
  match p, s with
  | EmptyString, _ => true
  | String a p', String b s' => Ascii.eqb a b && prefixb p' s'
  | String _ _, EmptyString => false
  end.

Fixpoint substringb (needle hay : string) : bool :=
  prefixb needle hay ||
  match hay with
  | EmptyString => false
  | String _ rest => substringb needle rest
  end.

(** ** What a rendered access point looks like *)

(** The artifact [a] is the connection file of access point [ap] of
    [def]: its path ends in the percent-escaped SSID, it was created
    under the owner-only mask, and its text has the wifi section with the
    SSID as it is, the shared IPv4 section in access-point mode, and the
    security section with the password as it is. *)
Definition renders_access_point (def : net_definition) (rootdir : option string)
           (ap : wifi_access_point) (a : artifact) : Prop :=
  a_rootdir a = rootdir /\
  a_path a = system_connections ++ id def ++ "-"
               ++ g_uri_escape_string (ssid ap) None true /\
  a_umask a = 63 /\
  contains (nl ++ "[wifi]" ++ nl ++ "ssid=" ++ ssid ap ++ nl) (a_content a) /\
  (mode ap = WIFI_MODE_AP ->
   contains (nl ++ "[ipv4]" ++ nl ++ "method=shared" ++ nl) (a_content a)) /\
  (forall pw, password ap = Some pw ->
   contains (nl ++ "[wifi-security]" ++ nl ++ "key-mgmt=wpa-psk" ++ nl
               ++ "psk=" ++ pw ++ nl) (a_content a)).

(** The mask is made of permission bits only. *)
Definition valid_umask (w : world) : Prop := 0 <= w_umask w < 512.

(** [files] were appended to the files of [w], and nothing else changed. *)
Definition add_files (files : list artifact) (w : world) : world :=
  mk_world (w_files w ++ files) (w_umask w) (w_stderr w) (udev_rules w) (w_writable w).

(** The buffer a [GString*] points to, empty when there is none. *)
Definition buf_of (p : gstring_ptr) : string :=
  match p with GLive buf => buf | _ => "" end.

(** The global [udev_rules] after the rules of [drvs] were appended. *)
Definition with_rules (p : gstring_ptr) (drvs : list string) : gstring_ptr :=
  match drvs with
  | [] => p
  | _ => GLive (buf_of p ++ rule_lines drvs)
  end.

(** Every definition of the graph can be excluded: it is ours, or has a
    driver match, or has a specifier. *)
Definition graph_ok (netdefs : GHashTable net_definition) : Prop :=
  Forall (fun kv => excludable (snd kv) = true) netdefs.

(** [n] contains one of the glob characters [*], [[], []] and [?]. *)
Definition has_glob_char (n : string) : Prop :=
  exists pre c post,
    n = pre ++ String c post /\ In c ["*"; "["; "]"; "?"]%char.

(** ** Concrete inputs *)

(** A run that starts with nothing written, umask 022, and a writable
    file system. *)
Definition fresh_world : world := mk_world [] 18 "" GNull (fun _ _ => true).

(** Scenario A: ethernet, no match, DHCP, owned by networkd. *)
Definition eth0_networkd : net_definition :=
  mk_netdef ND_ETHERNET BACKEND_NETWORKD "eth0" false true None false
            (mk_match None None None) None None.

(** Scenario B: one access point in access-point mode with a password. *)
Definition home_ap : wifi_access_point :=
  mk_ap WIFI_MODE_AP "Home" (Some "secret123").

Definition wlan0_nm : net_definition :=
  mk_netdef ND_WIFI BACKEND_NM "wlan0" false false None false
            (mk_match None None None) None (Some [("Home", home_ap)]).

(** A bridge that carries a MAC match. *)
Definition br0_with_mac : net_definition :=
  mk_netdef ND_BRIDGE BACKEND_NETWORKD "br0" false false None true
            (mk_match None (Some "00:11:22:33:44:55") None) None None.

(** An ethernet definition matched by driver and by a globbing name. *)
Definition eth_driver_glob : net_definition :=
  mk_netdef ND_ETHERNET BACKEND_NM "lan" false true None true
            (mk_match (Some "e1000") None (Some "eth*")) None None.

(** An ethernet definition matched by a globbing name only. *)
Definition eth_glob : net_definition :=
  mk_netdef ND_ETHERNET BACKEND_NM "lan" false true None true
            (mk_match None None (Some "eth*")) None None.

(** A wifi definition matched by a globbing name, with one network. *)
Definition wlan_glob : net_definition :=
  mk_netdef ND_WIFI BACKEND_NM "wl" false true None true
            (mk_match None None (Some "wl*")) None
            (Some [("Home", mk_ap WIFI_MODE_INFRASTRUCTURE "Home" None)]).

(** The same match, and a table of access points that is empty. *)
Definition wlan_glob_no_aps : net_definition :=
  mk_netdef ND_WIFI BACKEND_NM "wl" false true None true
            (mk_match None None (Some "wl*")) None (Some []).

(** A wifi definition with two networks, one of them with a space and a
    slash in its SSID. *)
Definition two_networks : GHashTable wifi_access_point :=
  [("Home", mk_ap WIFI_MODE_INFRASTRUCTURE "Home" (Some "s3cret"));
   ("Cafe /2", mk_ap WIFI_MODE_INFRASTRUCTURE "Cafe /2" None)].

Definition wlan_two : net_definition :=
  mk_netdef ND_WIFI BACKEND_NM "wl0" false true None false
            (mk_match None None None) None (Some two_networks).

(** A wifi definition matched by driver, without rename, whose table of
    access points is there but empty. *)
Definition wlan_driver_no_aps : net_definition :=
  mk_netdef ND_WIFI BACKEND_NM "wl" false true None true
            (mk_match (Some "iwlwifi") None None) None (Some []).

Definition wlan_no_aps : net_definition :=
  mk_netdef ND_WIFI BACKEND_NM "wl" false true None false
            (mk_match None None None) None (Some []).

(** Two definitions owned by networkd, and the two orders in which a
    table holding them can be walked. *)
Definition nd_a : net_definition :=
  mk_netdef ND_ETHERNET BACKEND_NETWORKD "a" false true None true
            (mk_match None (Some "aa:aa:aa:aa:aa:aa") None) None None.

Definition nd_b : net_definition :=
  mk_netdef ND_ETHERNET BACKEND_NETWORKD "b" false true None true
            (mk_match None (Some "bb:bb:bb:bb:bb:bb") None) None None.

Definition graph_ab : GHashTable net_definition := [("a", nd_a); ("b", nd_b)].
Definition graph_ba : GHashTable net_definition := [("b", nd_b); ("a", nd_a)].

(** A graph with one driver-matched and two otherwise matched definitions
    owned by networkd, and one owned by NetworkManager. *)
Definition nd_drv : net_definition :=
  mk_netdef ND_ETHERNET BACKEND_NETWORKD "d" false true None true
            (mk_match (Some "ixgbe") None None) None None.

Definition graph_mixed : GHashTable net_definition :=
  [("a", nd_a); ("d", nd_drv); ("wlan0", wlan0_nm); ("eth0", eth0_networkd)].

(** ** Further vocabulary for the properties of the whole file *)

(** [s] begins with [p]. *)
Definition starts_with (p s : string) : Prop :=
  exists rest, s = p ++ rest.

(** The definition is not owned by NetworkManager. *)
Definition foreign (nd : net_definition) : bool :=
  negb (is_BACKEND_NM (backend nd)).

(** The two diagnostics of the renderer. *)
Definition driver_diagnostic (def : net_definition) : string :=
  "ERROR: " ++ id def
  ++ ": NetworkManager definitions do not support matching by driver" ++ nl.

Definition glob_diagnostic (def : net_definition) : string :=
  "ERROR: " ++ id def
  ++ ": NetworkManager definitions do not support name globbing" ++ nl.

(** First lines of every connection file of [def]. *)
Definition connection_header (def : net_definition) : string :=
  "[connection]" ++ nl ++ "id=ubuntu-network-" ++ id def.

(** The artifact is a connection file of [def]: below [rootdir], in the
    system-connections directory under a name that starts with the id,
    created under mask 077, and beginning with the connection header. *)
Definition private_connection (def : net_definition) (rootdir : option string)
           (a : artifact) : Prop :=
  a_rootdir a = rootdir /\
  a_umask a = 63 /\
  starts_with (system_connections ++ id def) (a_path a) /\
  starts_with (connection_header def) (a_content a).

(** The [slave-type]/[master] lines and the DHCP section of a file. *)
Definition bridge_lines (def : net_definition) : string :=
  match bridge def with
  | Some b => "slave-type=bridge" ++ nl ++ "master=" ++ b ++ nl
  | None => ""
  end.

Definition dhcp_section (def : net_definition) : string :=
  if dhcp4 def then nl ++ "[ipv4]" ++ nl ++ "method=auto" ++ nl else "".

Definition ethernet_section (def : net_definition) : string :=
  nl ++ "[ethernet]" ++ nl ++ "wake-on-lan="
     ++ (if wake_on_lan def then "1" else "0") ++ nl.

(** More concrete inputs. *)
Definition br0_nm : net_definition :=
  mk_netdef ND_BRIDGE BACKEND_NM "br0" true true None true
            (mk_match None (Some "00:11:22:33:44:55") (Some "br*")) (Some "uplink") None.

Definition eth_renamed : net_definition :=
  mk_netdef ND_ETHERNET BACKEND_NM "lan" true false (Some "br0") true
            (mk_match (Some "e1000") (Some "00:11:22:33:44:55") (Some "en*"))
            (Some "lan0") None.

Definition eth_by_mac : net_definition :=
  mk_netdef ND_ETHERNET BACKEND_NM "lan" false true None true
            (mk_match None (Some "00:11:22:33:44:55") None) None None.

Definition eth_plain : net_definition :=
  mk_netdef ND_ETHERNET BACKEND_NM "eth0" false true None false
            (mk_match None None None) None None.

Definition eth_by_name : net_definition :=
  mk_netdef ND_ETHERNET BACKEND_NM "lan" false false None true
            (mk_match None None (Some "enp3s0")) None None.

Definition wlan_dhcp_ap : net_definition :=
  mk_netdef ND_WIFI BACKEND_NM "wlan0" false true None true
            (mk_match None (Some "00:11:22:33:44:55") None) None
            (Some [("Home", home_ap)]).

Definition vlan_like : net_definition :=
  mk_netdef 4 BACKEND_NM "vlan1" false false None false
            (mk_match None None None) None None.

Definition wlan_missing_table : net_definition :=
  mk_netdef ND_WIFI BACKEND_NM "wlan0" false false None false
            (mk_match None None None) None None.

Definition wlan_networkd : net_definition :=
  mk_netdef ND_WIFI BACKEND_NETWORKD "wlan0" false false None false
            (mk_match None None None) None None.

Definition eth_glob_networkd : net_definition :=
  mk_netdef ND_ETHERNET BACKEND_NETWORKD "lan" false false None true
            (mk_match None None (Some "en*")) None None.

Definition read_only_world : world := mk_world [] 18 "" GNull (fun _ _ => false).

(** Lines 161-166 of [write_nm_conf_access_point]: what is appended to the
    text [s] for the access point [ap]. *)
Definition wifi_text (s : string) (ap : wifi_access_point) : string :=
  let s := match mode ap with
           | WIFI_MODE_AP => s ++ nl ++ "[ipv4]" ++ nl ++ "method=shared" ++ nl
           | _ => s
           end in
  let s := s ++ nl ++ "[wifi]" ++ nl ++ "ssid=" ++ ssid ap ++ nl
             ++ "mode=" ++ wifi_mode_str (mode ap) ++ nl in
  match password ap with
  | Some pw => s ++ nl ++ "[wifi-security]" ++ nl
                 ++ "key-mgmt=wpa-psk" ++ nl ++ "psk=" ++ pw ++ nl
  | None => s
  end.

(** The ASCII characters that [g_uri_escape_string] lets through or
    produces when no reserved character is allowed. *)
Definition file_name_safe (c : ascii) : bool :=
  g_ascii_isalnum c
  || Ascii.eqb c "-" || Ascii.eqb c "." || Ascii.eqb c "_" || Ascii.eqb c "~"
  || Ascii.eqb c "%".

(** Two definitions of another backend matched by the same driver. *)
Definition nd_drv_too : net_definition :=
  mk_netdef ND_ETHERNET BACKEND_NETWORKD "e" false true None true
            (mk_match (Some "ixgbe") None None) None None.

Definition graph_same_driver : GHashTable net_definition :=
  [("d", nd_drv); ("e", nd_drv_too)].

(** * Properties *)

(** ** Strings *)

Lemma append_assoc (a b c : string) : (a ++ b) ++ c = a ++ b ++ c.
Proof.
  induction a as [| x a IH]; cbn; [reflexivity | now rewrite IH].
Qed.

Lemma append_nil_r (a : string) : a ++ "" = a.
Proof.
  induction a as [| x a IH]; cbn; [reflexivity | now rewrite IH].
Qed.

Lemma length_append (a b : string) :
  String.length (a ++ b) = (String.length a + String.length b)%nat.
Proof.
  induction a as [| x a IH]; cbn; [reflexivity | now rewrite IH].
Qed.

Lemma append_inv_head (a b c : string) : a ++ b = a ++ c -> b = c.
Proof.
  induction a as [| x a IH]; cbn; intros H; [exact H |].
  injection H as H. now apply IH.
Qed.

Lemma contains_refl (n : string) : contains n n.
Proof.
  exists "", "". cbn. now rewrite append_nil_r.
Qed.

Lemma contains_app_l (n a b : string) : contains n a -> contains n (a ++ b).
Proof.
  intros (pre & post & ->). exists pre, (post ++ b).
  now rewrite !append_assoc.
Qed.

Lemma contains_app_r (n a b : string) : contains n b -> contains n (a ++ b).
Proof.
  intros (pre & post & ->). exists (a ++ pre), post.
  now rewrite !append_assoc.
Qed.

Lemma prefixb_app (n post : string) : prefixb n (n ++ post) = true.
Proof.
  induction n as [| x n IH]; cbn; [reflexivity |].
  now rewrite Ascii.eqb_refl, IH.
Qed.

Lemma contains_substringb (n hay : string) :
  contains n hay -> substringb n hay = true.
Proof.
  intros (pre & post & ->).
  induction pre as [| x pre IH]; cbn [append].
  - destruct (n ++ post) eqn:E; cbn [substringb]; rewrite <- E;
      now rewrite prefixb_app.
  - cbn [substringb]. rewrite IH. apply orb_true_r.
Qed.

Create HintDb contains.
#[local] Hint Resolve contains_refl contains_app_l contains_app_r : contains.

(** ** Percent-escaping loses nothing *)

Lemma hex_roundtrip (c : ascii) :
  ascii_of_N (Z.to_N (unhex (hex (Z.shiftr (byte_val c) 4)) * 16
                      + unhex (hex (Z.land (byte_val c) 15)))) = c.
Proof.
  destruct c as [[] [] [] [] [] [] [] []]; vm_compute; reflexivity.
Qed.

Lemma is_cont_high (c : ascii) : is_cont c = true -> 128 <= byte_val c.
Proof.
  destruct c as [[] [] [] [] [] [] [] []]; vm_compute; intros H;
    try discriminate H; intros G; discriminate G.
Qed.

Lemma high_not_percent (c : ascii) : 128 <= byte_val c -> Ascii.eqb c "%" = false.
Proof.
  intros H. destruct (Ascii.eqb_spec c "%") as [-> | _]; [| reflexivity].
  vm_compute in H. exfalso. apply H. reflexivity.
Qed.

Lemma is_valid_not_percent (c : ascii) :
  is_valid c None = true -> Ascii.eqb c "%" = false.
Proof.
  intros H. destruct (Ascii.eqb_spec c "%") as [-> | _]; [| reflexivity].
  vm_compute in H. discriminate H.
Qed.

Lemma utf8_char_ok_high (c : ascii) (rest : string) :
  utf8_char_ok (String c rest) = true ->
  high_bytes (Nat.pred (g_utf8_skip c)) rest.
Proof.
  unfold utf8_char_ok, g_utf8_skip.
  destruct rest as [| b1 rest]; [discriminate |].
  set (v0 := byte_val c).
  destruct (Z.ltb_spec v0 192) as [Hlo | Hlo].
  { replace (192 <=? v0) with false by (symmetry; apply Z.leb_gt; lia).
    replace (224 <=? v0) with false by (symmetry; apply Z.leb_gt; lia).
    replace (240 <=? v0) with false by (symmetry; apply Z.leb_gt; lia).
    discriminate. }
  replace (192 <=? v0) with true by (symmetry; apply Z.leb_le; lia).
  destruct (Z.ltb_spec v0 224) as [H2 | H2]; cbn [andb].
  { intros H. apply andb_prop in H as [H1 _]. cbn. split; [now apply is_cont_high | exact I]. }
  replace (224 <=? v0) with true by (symmetry; apply Z.leb_le; lia).
  destruct (Z.ltb_spec v0 240) as [H3 | H3]; cbn [andb].
  { destruct rest as [| b2 rest]; [discriminate |].
    intros H. repeat (apply andb_prop in H as [H ?]).
    cbn. repeat split; try now apply is_cont_high. }
  replace (240 <=? v0) with true by (symmetry; apply Z.leb_le; lia).
  destruct (Z.ltb_spec v0 248) as [H4 | H4]; cbn [andb]; [| discriminate].
  destruct rest as [| b2 [| b3 rest]]; try discriminate.
  intros H. repeat (apply andb_prop in H as [H ?]).
  cbn. repeat split; try now apply is_cont_high.
Qed.

Lemma uri_unescape_escape (b : bool) (s : string) :
  forall k, high_bytes k s -> uri_unescape (uri_escape_from k None b s) = s.
Proof.
  induction s as [| c rest IH]; intros k Hk; [reflexivity |].
  destruct k as [| k]; cbn [uri_escape_from].
  - destruct ((128 <=? byte_val c) && b && utf8_char_ok (String c rest)) eqn:Hutf.
    + apply andb_prop in Hutf as [Hutf Hok]. apply andb_prop in Hutf as [Hge _].
      apply Z.leb_le in Hge.
      cbn [uri_unescape]. rewrite (high_not_percent c Hge).
      f_equal. apply IH. now apply utf8_char_ok_high.
    + destruct (is_valid c None) eqn:Hv.
      * cbn [uri_unescape]. rewrite (is_valid_not_percent c Hv).
        f_equal. apply IH. exact I.
      * cbn [uri_unescape]. rewrite Ascii.eqb_refl, hex_roundtrip.
        f_equal. apply IH. exact I.
  - destruct Hk as [Hge Hk].
    cbn [uri_unescape]. rewrite (high_not_percent c Hge).
    f_equal. now apply IH.
Qed.

Lemma g_uri_escape_string_inj (allow_utf8 : bool) (a b : string) :
  g_uri_escape_string a None allow_utf8 = g_uri_escape_string b None allow_utf8 ->
  a = b.
Proof.
  unfold g_uri_escape_string. intros H.
  rewrite <- (uri_unescape_escape allow_utf8 a 0 I),
          <- (uri_unescape_escape allow_utf8 b 0 I).
  now rewrite H.
Qed.


(** ** The specifier encoder *)

Lemma driver_needs_set_name_assert (def : net_definition) :
  driver_needs_set_name def ->
  negb (negb (is_set (driver (nd_match def))) || is_set (set_name def)) = false.
Proof.
  intros [H | H].
  - rewrite H. reflexivity.
  - destruct (set_name def); [| congruence].
    destruct (driver (nd_match def)); reflexivity.
Qed.

(** C1: on a definition that meets the encoder's precondition and has a MAC
    match, the encoder appends exactly ["mac:"] followed by the MAC value,
    whatever the original name, the rename target and the type are. *)
Theorem encode_mac_first (s : string) (def : net_definition) (m : string) :
  driver_needs_set_name def ->
  mac (nd_match def) = Some m ->
  g_string_append_netdef_match s def = Some (s ++ "mac:" ++ m).
Proof.
  intros Hpre Hmac. unfold g_string_append_netdef_match.
  rewrite (driver_needs_set_name_assert def Hpre), Hmac. reflexivity.
Qed.

Lemma encode_mac_first_witness :
  g_string_append_netdef_match ""
    (mk_netdef ND_BRIDGE BACKEND_NETWORKD "br0" false false None true
       (mk_match (Some "e1000") (Some "00:11:22:33:44:55") (Some "eth0"))
       (Some "lan0") None)
  = Some ("mac:00:11:22:33:44:55").
Proof.
  apply (encode_mac_first "" _ "00:11:22:33:44:55").
  - right. discriminate.
  - reflexivity.
Defined.

(** C2, as the code has it: on a virtual definition that meets the
    encoder's precondition and has no MAC match, the encoder appends
    exactly ["interface-name:"] followed by the id, whatever the original
    name and the rename target are. *)
Theorem encode_virtual_by_id (s : string) (def : net_definition) :
  ND_VIRTUAL <= type def ->
  driver_needs_set_name def ->
  mac (nd_match def) = None ->
  g_string_append_netdef_match s def = Some (s ++ "interface-name:" ++ id def).
Proof.
  intros Hvirt Hpre Hmac. unfold g_string_append_netdef_match.
  rewrite (driver_needs_set_name_assert def Hpre), Hmac.
  apply Z.leb_le in Hvirt. rewrite Hvirt, orb_true_r. reflexivity.
Qed.

Lemma encode_virtual_by_id_witness :
  g_string_append_netdef_match "unmanaged-devices+="
    (mk_netdef ND_BRIDGE BACKEND_NETWORKD "br0" false false None true
       (mk_match (Some "bridge") None (Some "br*")) (Some "uplink") None)
  = Some ("unmanaged-devices+=interface-name:br0").
Proof.
  apply (encode_virtual_by_id "unmanaged-devices+=").
  - vm_compute. discriminate.
  - right. discriminate.
  - reflexivity.
Defined.

(** C2 as stated fails: a virtual definition with a MAC match is encoded
    by its MAC, not by its id. *)
Lemma encode_virtual_with_mac :
  ND_VIRTUAL <= type br0_with_mac /\
  g_string_append_netdef_match "" br0_with_mac = Some "mac:00:11:22:33:44:55" /\
  g_string_append_netdef_match "" br0_with_mac
    <> Some ("interface-name:" ++ id br0_with_mac).
Proof.
  split; [| split].
  - vm_compute. discriminate.
  - reflexivity.
  - vm_compute. discriminate.
Qed.

(** ** The monad *)

Lemma bind_Done {A B : Type} (c : M A) (k : A -> M B) (w w' : world) (a : A) :
  c w = Done a w' -> bind c k w = k a w'.
Proof.
  intros H. unfold bind. now rewrite H.
Qed.

Lemma land_umask (m : Z) : 0 <= m < 512 -> Z.land m 511 = m.
Proof.
  intros H. change 511 with (Z.ones 9).
  rewrite Z.land_ones by lia. apply Z.mod_small. cbn. lia.
Qed.

(** ** The renderer *)

Lemma strpbrk_glob (n : string) :
  has_glob_char n <-> strpbrk n "*[]?" = true.
Proof.
  split.
  - intros (pre & c & post & -> & Hc).
    induction pre as [| x pre IH]; cbn [append strpbrk].
    + cbn in Hc. destruct Hc as [<- | [<- | [<- | [<- | []]]]]; reflexivity.
    + destruct (mem_ascii x "*[]?"); [reflexivity | exact IH].
  - induction n as [| x n IH]; cbn [strpbrk]; [discriminate |].
    destruct (mem_ascii x "*[]?") eqn:Hx.
    + intros _. exists "", x, n. split; [reflexivity |].
      cbn in Hx |- *.
      destruct (Ascii.eqb_spec x "*"); [now left |].
      destruct (Ascii.eqb_spec x "["); [now right; left |].
      destruct (Ascii.eqb_spec x "]"); [now right; right; left |].
      destruct (Ascii.eqb_spec x "?"); [now right; right; right; left |].
      discriminate Hx.
    + intros H. destruct (IH H) as (pre & c & post & -> & Hc).
      exists (String x pre), c, post. split; [reflexivity | exact Hc].
Qed.

Lemma type_str_cases (t : netdef_type) :
  type_str t <> None -> t = ND_ETHERNET \/ t = ND_WIFI \/ t = ND_BRIDGE.
Proof.
  unfold type_str.
  destruct (Z.eqb_spec t ND_ETHERNET); [now left |].
  destruct (Z.eqb_spec t ND_WIFI); [now right; left |].
  destruct (Z.eqb_spec t ND_BRIDGE); [now right; right |].
  congruence.
Qed.

(** The sections are produced, and nothing else happens, when the type
    has a keyfile name and no glob stands in the way. *)
Lemma sections_ok (def : net_definition) (ap : option wifi_access_point) (w : world) :
  type_str (type def) <> None ->
  name_globbed def = false ->
  exists s, write_nm_conf_access_point_sections def ap w = Done s w.
Proof.
  intros Ht Hg. apply type_str_cases in Ht.
  destruct def as [ty be i wol dh br hm [drv mc nm] sn aps].
  unfold name_globbed in Hg. cbn in Ht, Hg.
  unfold write_nm_conf_access_point_sections, bind, asserted, ret; cbn.
  destruct Ht as [-> | [-> | ->]]; cbn;
    destruct sn, hm, nm as [n |]; cbn in Hg |- *; try rewrite Hg;
    destruct mc; eexists; reflexivity.
Qed.

(** The globbing diagnostic of a definition. *)
Lemma sections_glob (def : net_definition) (ap : option wifi_access_point) (w : world) :
  type def = ND_ETHERNET \/ type def = ND_WIFI ->
  name_globbed def = true ->
  write_nm_conf_access_point_sections def ap w
  = Exited 1 (put_stderr ("ERROR: " ++ id def ++
       ": NetworkManager definitions do not support name globbing" ++ nl) w).
Proof.
  intros Ht Hg.
  destruct def as [ty be i wol dh br hm [drv mc nm] sn aps].
  unfold name_globbed in Hg. cbn in Ht, Hg.
  unfold write_nm_conf_access_point_sections, bind, asserted, ret; cbn.
  destruct sn; [discriminate |]. destruct hm; [| discriminate].
  destruct nm as [n |]; [| discriminate]. cbn in Hg.
  destruct Ht as [-> | ->]; cbn; rewrite Hg; reflexivity.
Qed.

Lemma wifi_block_contains (s name m : string) :
  contains (nl ++ "[wifi]" ++ nl ++ "ssid=" ++ name ++ nl)
           (s ++ nl ++ "[wifi]" ++ nl ++ "ssid=" ++ name ++ nl ++ "mode=" ++ m ++ nl).
Proof.
  exists s, ("mode=" ++ m ++ nl). f_equal.
  cbn. now rewrite append_assoc.
Qed.

Lemma add_files_nil (w : world) : add_files [] w = w.
Proof.
  destruct w. unfold add_files; cbn. now rewrite app_nil_r.
Qed.

Lemma add_files_app (xs ys : list artifact) (w : world) :
  add_files ys (add_files xs w) = add_files (xs ++ ys) w.
Proof.
  unfold add_files; cbn. now rewrite app_assoc.
Qed.

(** *** Rendering a wifi definition that passes the checks *)

Section WifiRendering.

Variable def : net_definition.
Variable rootdir : option string.
Hypothesis Hwifi : type def = ND_WIFI.
Hypothesis Hnoglob : name_globbed def = false.

(** One access point: one file, written under mask 077, and the mask put
    back. *)
Lemma write_access_point_ok (ap : wifi_access_point) (w : world) :
  all_writable rootdir w ->
  valid_umask w ->
  exists a, write_nm_conf_access_point def rootdir (Some ap) w
            = Done tt (add_files [a] w)
            /\ renders_access_point def rootdir ap a.
Proof.
  intros Hw Hm.
  destruct (sections_ok def (Some ap) w) as [s0 Hs0];
    [rewrite Hwifi; discriminate | exact Hnoglob |].
  unfold write_nm_conf_access_point.
  rewrite Hwifi. cbn [Z.eqb ND_WIFI Pos.eqb is_set g_assert].
  unfold bind at 1. cbn [g_assert].
  rewrite (bind_Done _ _ w w s0 Hs0).
  cbv beta iota zeta.
  match goal with
  | |- context [ g_string_free_to_file ?text rootdir ?path None ] =>
    set (conf_path := path); set (content := text)
  end.
  exists (mk_artifact rootdir conf_path content 63). split.
  - cbv beta iota. unfold bind, umask, g_string_free_to_file, ret; cbn.
    rewrite Hw. unfold add_files, add_file, set_umask; cbn.
    rewrite (land_umask _ Hm). now rewrite append_nil_r.
  - unfold renders_access_point; cbn [a_rootdir a_path a_umask a_content].
    repeat split.
    + subst content. destruct (password ap).
      * apply contains_app_l. apply wifi_block_contains.
      * apply wifi_block_contains.
    + intros Hap. subst content. rewrite Hap.
      destruct (password ap); auto 6 with contains.
    + intros pw Hpw. subst content. rewrite Hpw.
      auto with contains.
Qed.

(** The loop: one file per entry of the table, in the order of the walk. *)
Lemma write_each_ok (aps : GHashTable wifi_access_point) :
  forall w, all_writable rootdir w -> valid_umask w ->
  exists arts,
    write_nm_conf_each def rootdir aps w = Done tt (add_files arts w)
    /\ Forall2 (fun kv a => renders_access_point def rootdir (snd kv) a) aps arts.
Proof.
  induction aps as [| [key ap] rest IH]; intros w Hw Hm.
  - exists []. split; [| constructor]. cbn. unfold ret. now rewrite add_files_nil.
  - destruct (write_access_point_ok ap w Hw Hm) as (a & Ha & Hr).
    destruct (IH (add_files [a] w)) as (arts & Harts & Hrs); [exact Hw | exact Hm |].
    exists (a :: arts). split; [| now constructor].
    cbn [write_nm_conf_each]. rewrite (bind_Done _ _ _ _ _ Ha), Harts.
    now rewrite add_files_app.
Qed.

End WifiRendering.

Lemma Forall2_In_r {A B : Type} (R : A -> B -> Prop) (xs : list A) (ys : list B) (y : B) :
  Forall2 R xs ys -> In y ys -> exists x, In x xs /\ R x y.
Proof.
  induction 1 as [| x y' xs ys Hxy _ IH]; intros Hin; [destruct Hin |].
  destruct Hin as [-> | Hin].
  - exists x. split; [now left | exact Hxy].
  - destruct (IH Hin) as (x' & Hx' & HR). exists x'. split; [now right | exact HR].
Qed.

(** Access points with different SSIDs get files with different paths. *)
Lemma rendered_paths_distinct (def : net_definition) (rootdir : option string)
      (aps : GHashTable wifi_access_point) (arts : list artifact) :
  Forall2 (fun kv a => renders_access_point def rootdir (snd kv) a) aps arts ->
  NoDup (map (fun kv => ssid (snd kv)) aps) ->
  NoDup (map a_path arts).
Proof.
  induction 1 as [| kv a aps arts Hr Hrest IH]; cbn; intros Hnd; [constructor |].
  inversion Hnd as [| ? ? Hnotin Hnd']; subst.
  constructor; [| now apply IH].
  intros Hin. apply in_map_iff in Hin as (a' & Hpath & Hin').
  destruct (Forall2_In_r _ _ _ _ Hrest Hin') as (kv' & Hkv' & Hr').
  destruct Hr as (_ & Hp & _), Hr' as (_ & Hp' & _).
  rewrite Hp, Hp' in Hpath.
  do 3 apply append_inv_head in Hpath.
  apply g_uri_escape_string_inj in Hpath.
  apply Hnotin. rewrite <- Hpath. now apply (in_map (fun kv => ssid (snd kv))).
Qed.

Lemma keyed_by_ssid_distinct (aps : GHashTable wifi_access_point) :
  keyed_by_ssid aps -> NoDup (map (fun kv => ssid (snd kv)) aps).
Proof.
  intros [Hnd Hk].
  replace (map (fun kv => ssid (snd kv)) aps) with (map fst aps); [exact Hnd |].
  induction Hk as [| kv aps Hkv _ IH]; cbn; [reflexivity |].
  inversion Hnd; subst. now rewrite Hkv, IH.
Qed.

(** [write_nm_conf] on a definition of ours that passes the driver check. *)
Lemma write_nm_conf_ours (def : net_definition) (rootdir : option string) :
  backend def = BACKEND_NM ->
  driver_needs_set_name def ->
  write_nm_conf def rootdir =
  if type def =? ND_WIFI then
    g_assert (is_set (access_points def)) ;;;
    match access_points def with
    | Some aps => write_nm_conf_each def rootdir aps
    | None => ret tt
    end
  else
    g_assert (negb (is_set (access_points def))) ;;;
    write_nm_conf_access_point def rootdir None.
Proof.
  intros Hb Hpre. unfold write_nm_conf. rewrite Hb. cbn [is_BACKEND_NM negb].
  replace (is_set (driver (nd_match def)) && negb (is_set (set_name def))) with false.
  - reflexivity.
  - destruct Hpre as [-> | Hs]; [reflexivity |].
    destruct (set_name def); [| congruence]. now rewrite andb_false_r.
Qed.

(** The first thing a rendering with a globbing name does is to leave. *)
Lemma write_access_point_glob (def : net_definition) (rootdir : option string)
      (ap : option wifi_access_point) (w : world) :
  name_globbed def = true ->
  (type def = ND_ETHERNET /\ ap = None) \/
  (type def = ND_WIFI /\ exists a, ap = Some a) ->
  write_nm_conf_access_point def rootdir ap w
  = Exited 1 (put_stderr ("ERROR: " ++ id def ++
       ": NetworkManager definitions do not support name globbing" ++ nl) w).
Proof.
  intros Hg Hty. unfold write_nm_conf_access_point.
  destruct Hty as [[Ht ->] | [Ht [a ->]]]; rewrite Ht; cbn;
    unfold bind at 1; cbn; unfold bind at 1.
  - now rewrite (sections_glob def None w (or_introl Ht) Hg).
  - now rewrite (sections_glob def (Some a) w (or_intror Ht) Hg).
Qed.

(** C3: a definition of ours with a driver match and no rename target
    makes the renderer leave with status 1, after a diagnostic that names
    the definition, and without any file being written. *)
Theorem driver_match_rejected (def : net_definition) (rootdir : option string)
        (w : world) :
  backend def = BACKEND_NM ->
  driver (nd_match def) <> None ->
  set_name def = None ->
  exists w',
    write_nm_conf def rootdir w = Exited 1 w'
    /\ w_files w' = w_files w
    /\ w_stderr w' = w_stderr w ++ "ERROR: " ++ id def
         ++ ": NetworkManager definitions do not support matching by driver" ++ nl.
Proof.
  intros Hb Hd Hs. eexists. split; [| split].
  - unfold write_nm_conf. rewrite Hb, Hs.
    destruct (driver (nd_match def)); [| congruence]. reflexivity.
  - reflexivity.
  - reflexivity.
Qed.

Lemma driver_match_rejected_witness :
  exists w',
    write_nm_conf eth_driver_glob (Some "/tmp/root") fresh_world = Exited 1 w'
    /\ w_files w' = []
    /\ w_stderr w' =
       "ERROR: lan: NetworkManager definitions do not support matching by driver" ++ nl.
Proof.
  apply (driver_match_rejected eth_driver_glob (Some "/tmp/root") fresh_world).
  - reflexivity.
  - discriminate.
  - reflexivity.
Defined.

(** C4, as the code has it: an ethernet definition of ours, or a wifi
    definition of ours with at least one access point, that has no rename
    target and no driver match and whose match names the device with a
    glob character, makes the renderer leave with status 1 after the
    "do not support name globbing" diagnostic naming the definition,
    without any file being written. *)
Theorem glob_name_rejected (def : net_definition) (rootdir : option string)
        (n : string) (w : world) :
  backend def = BACKEND_NM ->
  set_name def = None ->
  driver (nd_match def) = None ->
  has_match def = true ->
  original_name (nd_match def) = Some n ->
  has_glob_char n ->
  (type def = ND_ETHERNET /\ access_points def = None) \/
  (type def = ND_WIFI /\
   exists kv rest, access_points def = Some (kv :: rest)) ->
  exists w',
    write_nm_conf def rootdir w = Exited 1 w'
    /\ w_files w' = w_files w
    /\ w_stderr w' = w_stderr w ++ "ERROR: " ++ id def
         ++ ": NetworkManager definitions do not support name globbing" ++ nl.
Proof.
  intros Hb Hs Hd Hm Hn Hglob Hty.
  apply strpbrk_glob in Hglob.
  assert (Hg : name_globbed def = true).
  { unfold name_globbed. now rewrite Hs, Hm, Hn. }
  rewrite (write_nm_conf_ours def rootdir Hb (or_introl Hd)).
  exists (put_stderr ("ERROR: " ++ id def ++
            ": NetworkManager definitions do not support name globbing" ++ nl) w).
  split; [| split; reflexivity].
  destruct Hty as [[Ht Ha] | [Ht ([key ap] & rest & Ha)]]; rewrite Ht, Ha; cbn.
  - now rewrite (write_access_point_glob def rootdir None w Hg (or_introl (conj Ht eq_refl))).
  - unfold bind at 1.
    now rewrite (write_access_point_glob def rootdir (Some ap) w Hg
                   (or_intror (conj Ht (ex_intro _ ap eq_refl)))).
Qed.

Lemma glob_name_rejected_witness :
  exists w',
    write_nm_conf eth_glob None fresh_world = Exited 1 w'
    /\ w_files w' = []
    /\ w_stderr w' =
       "ERROR: lan: NetworkManager definitions do not support name globbing" ++ nl.
Proof.
  apply (glob_name_rejected eth_glob None "eth*" fresh_world).
  - reflexivity.
  - reflexivity.
  - reflexivity.
  - reflexivity.
  - reflexivity.
  - exists "eth", "*"%char, "". split; [reflexivity | now left].
  - left. split; reflexivity.
Defined.

(** C4 as stated fails: with a driver match as well, the diagnostic is the
    one about driver matching, and it does not mention globbing. *)
Lemma glob_name_with_driver :
  type eth_driver_glob < ND_VIRTUAL /\
  backend eth_driver_glob = BACKEND_NM /\
  set_name eth_driver_glob = None /\
  original_name (nd_match eth_driver_glob) = Some "eth*" /\
  has_glob_char "eth*" /\
  exists w',
    write_nm_conf eth_driver_glob None fresh_world = Exited 1 w'
    /\ w_stderr w' =
       "ERROR: lan: NetworkManager definitions do not support matching by driver" ++ nl
    /\ ~ contains "definitions do not support name globbing" (w_stderr w').
Proof.
  split; [vm_compute; reflexivity |].
  split; [reflexivity |]. split; [reflexivity |]. split; [reflexivity |].
  split; [exists "eth", "*"%char, ""; split; [reflexivity | now left] |].
  eexists. split; [reflexivity |]. split; [reflexivity |].
  intros H. apply contains_substringb in H. vm_compute in H. discriminate H.
Qed.

(** Nor does the glob matter when there is no access point to render. *)
Lemma glob_name_without_access_points :
  write_nm_conf wlan_glob_no_aps None fresh_world = Done tt fresh_world.
Proof.
  reflexivity.
Qed.

(** C5, as the code has it: a wifi definition of ours that passes the two
    checks of the renderer (no driver match without rename target, no glob
    in the name it binds to), with N access points keyed by SSID on a
    writable file system, yields exactly N files, one per access point in
    iteration order, with pairwise different paths made of the id, a dash
    and the percent-escaped SSID, each holding the SSID unescaped. *)
Theorem wifi_one_file_per_access_point (def : net_definition)
        (rootdir : option string) (aps : GHashTable wifi_access_point) (w : world) :
  type def = ND_WIFI ->
  backend def = BACKEND_NM ->
  access_points def = Some aps ->
  keyed_by_ssid aps ->
  driver_needs_set_name def ->
  name_globbed def = false ->
  all_writable rootdir w ->
  valid_umask w ->
  exists arts,
    write_nm_conf def rootdir w = Done tt (add_files arts w)
    /\ length arts = length aps
    /\ NoDup (map a_path arts)
    /\ Forall2 (fun kv a => renders_access_point def rootdir (snd kv) a) aps arts.
Proof.
  intros Ht Hb Ha Hk Hpre Hg Hw Hm.
  destruct (write_each_ok def rootdir Ht Hg aps w Hw Hm) as (arts & Hrun & Hr).
  exists arts. repeat split.
  - rewrite (write_nm_conf_ours def rootdir Hb Hpre), Ht, Ha. exact Hrun.
  - symmetry. exact (Forall2_length Hr).
  - apply (rendered_paths_distinct def rootdir aps arts Hr).
    now apply keyed_by_ssid_distinct.
  - exact Hr.
Qed.

Lemma wifi_one_file_per_access_point_witness :
  exists arts,
    write_nm_conf wlan_two (Some "/tmp/root") fresh_world
    = Done tt (add_files arts fresh_world)
    /\ length arts = length two_networks
    /\ NoDup (map a_path arts)
    /\ Forall2 (fun kv a =>
                  renders_access_point wlan_two (Some "/tmp/root") (snd kv) a)
               two_networks arts.
Proof.
  apply (wifi_one_file_per_access_point wlan_two (Some "/tmp/root") two_networks
                                        fresh_world).
  - reflexivity.
  - reflexivity.
  - reflexivity.
  - split.
    + repeat constructor; cbn; intuition discriminate.
    + repeat constructor.
  - left. reflexivity.
  - reflexivity.
  - intros path. reflexivity.
  - unfold valid_umask. cbn. lia.
Defined.

(** C5 as stated fails: a wifi definition of ours with one access point
    and a globbing match name yields no file at all. *)
Lemma wifi_glob_writes_nothing :
  type wlan_glob = ND_WIFI /\
  backend wlan_glob = BACKEND_NM /\
  access_points wlan_glob
    = Some [("Home", mk_ap WIFI_MODE_INFRASTRUCTURE "Home" None)] /\
  (exists w', write_nm_conf wlan_glob None fresh_world = Exited 1 w'
              /\ w_files w' = []) /\
  ~ (exists arts, write_nm_conf wlan_glob None fresh_world
                  = Done tt (add_files arts fresh_world)
                  /\ length arts = 1%nat).
Proof.
  repeat split.
  - eexists. split; reflexivity.
  - intros (arts & H & _). vm_compute in H. discriminate H.
Qed.



(** C10, as the code has it: a wifi definition of ours that passes the
    driver check and whose table of access points is there but empty is
    rendered without any error and without any change to the world: no
    file, no diagnostic. *)
Theorem wifi_without_access_points (def : net_definition) (rootdir : option string)
        (w : world) :
  type def = ND_WIFI ->
  backend def = BACKEND_NM ->
  access_points def = Some [] ->
  driver_needs_set_name def ->
  write_nm_conf def rootdir w = Done tt w.
Proof.
  intros Ht Hb Ha Hpre.
  rewrite (write_nm_conf_ours def rootdir Hb Hpre), Ht, Ha. reflexivity.
Qed.

Lemma wifi_without_access_points_witness :
  write_nm_conf wlan_no_aps None fresh_world = Done tt fresh_world.
Proof.
  apply (wifi_without_access_points wlan_no_aps None fresh_world).
  - reflexivity.
  - reflexivity.
  - reflexivity.
  - left. reflexivity.
Defined.

(** C10 as stated fails: with a driver match and no rename target, the
    renderer leaves with status 1 although the table is empty. *)
Lemma wifi_without_access_points_driver :
  type wlan_driver_no_aps = ND_WIFI /\
  backend wlan_driver_no_aps = BACKEND_NM /\
  access_points wlan_driver_no_aps = Some [] /\
  (exists w', write_nm_conf wlan_driver_no_aps None fresh_world = Exited 1 w'
              /\ w_stderr w' =
                 "ERROR: wl: NetworkManager definitions do not support matching by driver"
                   ++ nl) /\
  ~ (exists w', write_nm_conf wlan_driver_no_aps None fresh_world = Done tt w').
Proof.
  repeat split.
  - eexists. split; reflexivity.
  - intros (w' & H). vm_compute in H. discriminate H.
Qed.

(** ** The aggregator *)

Lemma encode_append (s : string) (nd : net_definition) :
  g_string_append_netdef_match s nd
  = option_map (append s) (g_string_append_netdef_match "" nd).
Proof.
  unfold g_string_append_netdef_match.
  destruct (negb _); [reflexivity |].
  destruct (mac (nd_match nd)); [reflexivity |].
  destruct (_ || _); [reflexivity |].
  destruct (_ =? _); reflexivity.
Qed.

Lemma has_specifier_encodes (nd : net_definition) :
  driver (nd_match nd) = None ->
  has_specifier nd = true ->
  exists sp, g_string_append_netdef_match "" nd = Some sp.
Proof.
  intros Hd Hs. unfold g_string_append_netdef_match, has_specifier in *.
  rewrite Hd. cbn [is_set negb orb].
  destruct (mac (nd_match nd)); [eexists; reflexivity |].
  cbn [is_set orb] in Hs.
  destruct (is_set (original_name (nd_match nd)) || is_set (set_name nd)
            || (ND_VIRTUAL <=? type nd)); [eexists; reflexivity |].
  cbn [orb] in Hs. rewrite Hs. eexists; reflexivity.
Qed.

Lemma set_udev_rules_same (w : world) : set_udev_rules (udev_rules w) w = w.
Proof.
  now destruct w.
Qed.

Lemma with_rules_cons (p : gstring_ptr) (drv : string) (drvs : list string) :
  with_rules (GLive (buf_of p ++ udev_rule drv)) drvs = with_rules p (drv :: drvs).
Proof.
  destruct drvs as [| d ds]; unfold with_rules; cbn [rule_lines buf_of].
  - now rewrite append_nil_r.
  - now rewrite append_assoc.
Qed.

(** What the walk over the table leaves in the buffer and in the global. *)
Lemma foreach_collects (netdefs : GHashTable net_definition) :
  graph_ok netdefs ->
  forall str w, udev_rules w <> GFreed ->
  g_hash_table_foreach netdefs nd_append_non_nm_ids str w
  = Done (str ++ comma_terminated (specifier_set (arbitrate netdefs)))
         (set_udev_rules (with_rules (udev_rules w) (device_rules (arbitrate netdefs))) w).
Proof.
  induction 1 as [| [key nd] rest Hnd _ IH]; intros str w Hw.
  - cbn. unfold ret. now rewrite append_nil_r, set_udev_rules_same.
  - cbn [g_hash_table_foreach]. unfold excludable in Hnd. cbn [snd] in Hnd.
    unfold arbitrate in *. cbn [flat_map specifier_set device_rules snd] in *.
    unfold nd_append_non_nm_ids, specifier_of, driver_of.
    destruct (is_BACKEND_NM (backend nd)); cbn [negb app].
    + unfold bind at 1, ret. now apply IH.
    + destruct (driver (nd_match nd)) as [drv |] eqn:Hd; cbn [app].
      * unfold bind at 1.
        destruct (udev_rules w) as [| buf |] eqn:Hu; [| | congruence];
          rewrite IH by (unfold set_udev_rules; cbn [udev_rules]; discriminate);
          unfold set_udev_rules; cbn [udev_rules w_files w_umask w_stderr w_writable];
          rewrite <- with_rules_cons; reflexivity.
      * cbn [is_set orb] in Hnd.
        destruct (has_specifier_encodes nd Hd Hnd) as [sp Hsp].
        rewrite encode_append, Hsp. cbn [option_map].
        unfold bind at 1, bind at 1, asserted, ret.
        rewrite IH by exact Hw. cbn [app comma_terminated].
        f_equal. now rewrite !append_assoc.
Qed.

Lemma comma_terminated_length (specs : list string) :
  (0 <? String.length (comma_terminated specs))%nat
  = match specs with [] => false | _ => true end.
Proof.
  destruct specs as [| sp rest]; [reflexivity |].
  cbn [comma_terminated]. rewrite length_append. cbn [append String.length].
  apply Nat.ltb_lt. lia.
Qed.

(** The finisher writes the artifacts the plan calls for, and nothing
    else. *)
Lemma finish_refines (netdefs : GHashTable net_definition) (rootdir : option string)
      (w : world) :
  graph_ok netdefs ->
  udev_rules w = GNull ->
  all_writable rootdir w ->
  exists w',
    write_nm_conf_finish netdefs rootdir w = Done tt w'
    /\ w_files w' = (w_files w ++ finish rootdir (w_umask w) (arbitrate netdefs))%list
    /\ w_umask w' = w_umask w
    /\ w_stderr w' = w_stderr w.
Proof.
  intros Hok Hu Hw. unfold write_nm_conf_finish.
  destruct netdefs as [| kv rest] eqn:Hnd.
  - exists w. cbn. unfold ret. repeat split. now rewrite app_nil_r.
  - rewrite <- Hnd in *. replace (g_hash_table_size netdefs =? 0)%nat with false
      by (rewrite Hnd; reflexivity).
    cbv zeta. unfold bind at 1.
    rewrite (foreach_collects netdefs Hok) by (rewrite Hu; discriminate).
    rewrite Hu. unfold finish.
    set (plan := arbitrate netdefs).
    unfold bind at 1.
    rewrite length_append.
    replace (String.length keyfile_header
             <? String.length keyfile_header
                + String.length (comma_terminated (specifier_set plan)))%nat
      with (0 <? String.length (comma_terminated (specifier_set plan)))%nat
      by (destruct (String.length (comma_terminated (specifier_set plan)));
          [ rewrite Nat.add_0_r, Nat.ltb_irrefl; reflexivity
          | symmetry; apply Nat.ltb_lt; lia ]).
    rewrite comma_terminated_length.
    unfold g_string_free_to_file, ret, all_writable in *.
    destruct (specifier_set plan) as [| sp sps];
      destruct (device_rules plan) as [| drv drvs];
      cbn [with_rules udev_rules set_udev_rules w_writable add_file w_files
           w_umask w_stderr buf_of app];
      rewrite ?Hu, ?Hw, ?append_nil_r;
      cbn [with_rules udev_rules set_udev_rules w_writable add_file w_files
           w_umask w_stderr buf_of app];
      rewrite ?Hw; eexists; (split; [reflexivity |]);
      cbn; rewrite <- ?app_assoc, ?app_nil_r; repeat split.
Qed.

Lemma contains_comma_terminated (sp : string) (specs : list string) :
  In sp specs -> contains sp (comma_terminated specs).
Proof.
  induction specs as [| x rest IH]; intros Hin; [destruct Hin |].
  cbn [comma_terminated]. destruct Hin as [-> | Hin].
  - auto with contains.
  - auto with contains.
Qed.

Lemma concat_empty_cons (x : string) (l : list string) :
  String.concat "" (x :: l) = x ++ String.concat "" l.
Proof.
  destruct l as [| y l]; cbn; [now rewrite append_nil_r | reflexivity].
Qed.

(** The specifiers, each followed by a comma, are the specifiers joined
    by commas and one more comma at the end. *)
Lemma comma_terminated_joined (specs : list string) :
  specs <> [] -> comma_terminated specs = String.concat "," specs ++ ",".
Proof.
  induction specs as [| x rest IH]; intros Hne; [congruence |].
  destruct rest as [| y rest'].
  - reflexivity.
  - cbn [comma_terminated] in *. rewrite IH by discriminate.
    cbn [String.concat]. now rewrite !append_assoc.
Qed.

Lemma rule_lines_concat (drvs : list string) :
  rule_lines drvs
  = String.concat ""
      (map (fun drv =>
              "ACTION==" ++ dq ++ "add|change" ++ dq ++ ", SUBSYSTEM==" ++ dq
                ++ "net" ++ dq ++ ", ENV{ID_NET_DRIVER}==" ++ dq ++ drv ++ dq
                ++ ", ENV{NM_UNMANAGED}=" ++ dq ++ "1" ++ dq ++ nl) drvs).
Proof.
  induction drvs as [| d rest IH]; [reflexivity |].
  cbn [rule_lines map]. now rewrite concat_empty_cons, IH.
Qed.

Lemma driver_rule_count (netdefs : GHashTable net_definition) :
  length (device_rules (arbitrate netdefs))
  = length (filter (fun kv => negb (is_BACKEND_NM (backend (snd kv)))
                              && is_set (driver (nd_match (snd kv)))) netdefs).
Proof.
  unfold arbitrate; cbn [device_rules].
  induction netdefs as [| [key nd] rest IH]; [reflexivity |].
  cbn [flat_map filter snd]. rewrite length_app, IH. unfold driver_of.
  destruct (is_BACKEND_NM (backend nd)); cbn [negb andb]; [reflexivity |].
  destruct (driver (nd_match nd)); reflexivity.
Qed.

(** C9, as the code has it: after a walk over a graph whose definitions
    can all be excluded, started with no rules collected and a writable
    file system, the finisher returns (on an empty graph it does nothing
    at all), and what it has written is: when specifiers were collected,
    one file [run/NetworkManager/conf.d/ubuntu-network.conf] holding the
    [keyfile] stanza whose one directive [unmanaged-devices+=] lists
    them joined by commas and followed by one more comma; and, when
    drivers were collected, one file
    [run/udev/rules.d/90-ubuntu-network.rules] holding one rule line for
    each definition of another backend that has a driver match. *)
Theorem finish_writes_the_plan (netdefs : GHashTable net_definition)
        (rootdir : option string) (w : world) :
  graph_ok netdefs ->
  udev_rules w = GNull ->
  all_writable rootdir w ->
  write_nm_conf_finish [] rootdir w = Done tt w /\
  exists w',
    write_nm_conf_finish netdefs rootdir w = Done tt w'
    /\ w_files w' =
       (w_files w
        ++ match specifier_set (arbitrate netdefs) with
           | [] => []
           | specs =>
             [mk_artifact rootdir "run/NetworkManager/conf.d/ubuntu-network.conf"
                ("[keyfile]" ++ nl ++ "# devices managed by networkd" ++ nl
                 ++ "unmanaged-devices+=" ++ String.concat "," specs ++ ",")
                (w_umask w)]
           end
        ++ match device_rules (arbitrate netdefs) with
           | [] => []
           | drvs =>
             [mk_artifact rootdir "run/udev/rules.d/90-ubuntu-network.rules"
                (String.concat ""
                   (map (fun drv =>
                           ("ACTION==" ++ dq ++ "add|change" ++ dq
                              ++ ", SUBSYSTEM==" ++ dq ++ "net" ++ dq
                              ++ ", ENV{ID_NET_DRIVER}==" ++ dq ++ drv ++ dq
                              ++ ", ENV{NM_UNMANAGED}=" ++ dq ++ "1" ++ dq
                              ++ nl)%string)
                        drvs))
                (w_umask w)]
           end)%list
    /\ length (device_rules (arbitrate netdefs))
       = length (filter (fun kv => negb (is_BACKEND_NM (backend (snd kv)))
                                   && is_set (driver (nd_match (snd kv)))) netdefs).
Proof.
  intros Hok Hu Hw. split; [reflexivity |].
  destruct (finish_refines netdefs rootdir w Hok Hu Hw) as (w' & Hrun & Hfiles & _).
  exists w'. split; [exact Hrun |]. split; [| apply driver_rule_count].
  rewrite Hfiles. unfold finish. f_equal. f_equal.
  - destruct (specifier_set (arbitrate netdefs)) as [| sp sps]; [reflexivity |].
    rewrite comma_terminated_joined by discriminate.
    unfold keyfile_header, conf_d_path. now rewrite !append_assoc.
  - destruct (device_rules (arbitrate netdefs)) as [| d ds]; [reflexivity |].
    now rewrite rule_lines_concat.
Qed.

Lemma finish_writes_the_plan_witness :
  write_nm_conf_finish [] None fresh_world = Done tt fresh_world /\
  exists w',
    write_nm_conf_finish graph_mixed None fresh_world = Done tt w'
    /\ w_files w' =
       [mk_artifact None "run/NetworkManager/conf.d/ubuntu-network.conf"
          ("[keyfile]" ++ nl ++ "# devices managed by networkd" ++ nl
           ++ "unmanaged-devices+=mac:aa:aa:aa:aa:aa:aa,type:ethernet,") 18;
        mk_artifact None "run/udev/rules.d/90-ubuntu-network.rules"
          ("ACTION==" ++ dq ++ "add|change" ++ dq ++ ", SUBSYSTEM==" ++ dq
             ++ "net" ++ dq ++ ", ENV{ID_NET_DRIVER}==" ++ dq ++ "ixgbe" ++ dq
             ++ ", ENV{NM_UNMANAGED}=" ++ dq ++ "1" ++ dq ++ nl) 18]
    /\ length (device_rules (arbitrate graph_mixed))
       = length (filter (fun kv => negb (is_BACKEND_NM (backend (snd kv)))
                                   && is_set (driver (nd_match (snd kv))))
                        graph_mixed).
Proof.
  apply (finish_writes_the_plan graph_mixed None fresh_world).
  - repeat constructor.
  - reflexivity.
  - intros path. reflexivity.
Defined.

(** C9 as stated fails: the specifiers in the file are not just joined by
    commas, a comma follows the last one too. *)
Lemma finish_trailing_comma :
  graph_ok graph_ab /\
  specifier_set (arbitrate graph_ab)
  = ["mac:aa:aa:aa:aa:aa:aa"; "mac:bb:bb:bb:bb:bb:bb"] /\
  write_nm_conf_finish graph_ab None fresh_world
  = Done tt (add_files
               [mk_artifact None "run/NetworkManager/conf.d/ubuntu-network.conf"
                  ("[keyfile]" ++ nl ++ "# devices managed by networkd" ++ nl
                   ++ "unmanaged-devices+="
                   ++ "mac:aa:aa:aa:aa:aa:aa,mac:bb:bb:bb:bb:bb:bb,") 18]
               fresh_world) /\
  "[keyfile]" ++ nl ++ "# devices managed by networkd" ++ nl
    ++ "unmanaged-devices+=" ++ "mac:aa:aa:aa:aa:aa:aa,mac:bb:bb:bb:bb:bb:bb,"
  <> "[keyfile]" ++ nl ++ "# devices managed by networkd" ++ nl
       ++ "unmanaged-devices+="
       ++ String.concat "," (specifier_set (arbitrate graph_ab)).
Proof.
  split; [repeat constructor |].
  split; [reflexivity |].
  split; [vm_compute; reflexivity |].
  vm_compute. discriminate.
Qed.

(** Nor is there one rule per driver: two definitions matched by the same
    driver give the same rule twice. *)
Lemma finish_repeats_rules :
  write_nm_conf_finish graph_same_driver None fresh_world
  = Done tt (set_udev_rules GFreed
               (add_files
                  [mk_artifact None "run/udev/rules.d/90-ubuntu-network.rules"
                     (udev_rule "ixgbe" ++ udev_rule "ixgbe") 18]
                  fresh_world)).
Proof.
  vm_compute. reflexivity.
Qed.

(** C6: an ethernet definition without match criteria (and so without
    rename target) that another backend owns: the renderer returns
    without touching the world, and the finisher, run over a graph that
    holds the definition, writes the unmanaged-devices file, whose text
    contains the specifier [type:ethernet]. *)
Theorem unmanaged_ethernet_wildcard (netdefs : GHashTable net_definition)
        (key : string) (def : net_definition) (rootdir : option string) (w : world) :
  In (key, def) netdefs ->
  type def = ND_ETHERNET ->
  backend def <> BACKEND_NM ->
  nd_match def = mk_match None None None ->
  set_name def = None ->
  graph_ok netdefs ->
  udev_rules w = GNull ->
  all_writable rootdir w ->
  write_nm_conf def rootdir w = Done tt w /\
  In "type:ethernet" (specifier_set (arbitrate netdefs)) /\
  exists w' content,
    write_nm_conf_finish netdefs rootdir w = Done tt w'
    /\ In (mk_artifact rootdir conf_d_path content (w_umask w)) (w_files w')
    /\ contains "type:ethernet" content.
Proof.
  intros Hin Ht Hb Hmatch Hs Hok Hu Hw.
  assert (Hnm : is_BACKEND_NM (backend def) = false)
    by (destruct (backend def); [reflexivity | reflexivity | congruence]).
  assert (Hspec : In "type:ethernet" (specifier_set (arbitrate netdefs))).
  { unfold arbitrate; cbn [specifier_set]. apply in_flat_map.
    exists (key, def). split; [exact Hin |]. cbn [snd].
    unfold specifier_of, g_string_append_netdef_match.
    rewrite Hnm, Hmatch, Hs, Ht. cbn. now left. }
  split; [| split; [exact Hspec |]].
  - unfold write_nm_conf. now rewrite Hnm.
  - destruct (finish_refines netdefs rootdir w Hok Hu Hw) as (w' & Hrun & Hfiles & _).
    unfold finish in Hfiles.
    destruct (specifier_set (arbitrate netdefs)) as [| sp sps] eqn:Hspecs;
      [destruct Hspec |].
    exists w', (keyfile_header ++ comma_terminated (sp :: sps)). repeat split.
    + exact Hrun.
    + rewrite Hfiles. apply in_or_app. right. apply in_or_app. left. now left.
    + apply contains_app_r. now apply contains_comma_terminated.
Qed.

Lemma unmanaged_ethernet_wildcard_witness :
  write_nm_conf eth0_networkd None fresh_world = Done tt fresh_world /\
  In "type:ethernet" (specifier_set (arbitrate [("eth0", eth0_networkd)])) /\
  exists w' content,
    write_nm_conf_finish [("eth0", eth0_networkd)] None fresh_world = Done tt w'
    /\ In (mk_artifact None conf_d_path content 18) (w_files w')
    /\ contains "type:ethernet" content.
Proof.
  apply (unmanaged_ethernet_wildcard [("eth0", eth0_networkd)] "eth0" eth0_networkd
                                     None fresh_world).
  - left. reflexivity.
  - reflexivity.
  - discriminate.
  - reflexivity.
  - reflexivity.
  - repeat constructor.
  - reflexivity.
  - intros path. reflexivity.
Defined.

Lemma finish_paths (rootdir : option string) (mask : Z) (p q : ExclusionPlan) :
  Permutation (specifier_set p) (specifier_set q) ->
  Permutation (device_rules p) (device_rules q) ->
  map a_path (finish rootdir mask p) = map a_path (finish rootdir mask q).
Proof.
  intros Hs Hd. unfold finish.
  destruct (specifier_set p), (specifier_set q);
    try (apply Permutation_nil in Hs; discriminate Hs);
    try (symmetry in Hs; apply Permutation_nil in Hs; discriminate Hs);
    destruct (device_rules p), (device_rules q);
    try (apply Permutation_nil in Hd; discriminate Hd);
    try (symmetry in Hd; apply Permutation_nil in Hd; discriminate Hd);
    reflexivity.
Qed.

(** C7, as the code has it: the two aggregate artifacts are what the plan
    collected along the walk calls for, so they depend on nothing but the
    graph, the root, the mask and the order of the walk; under another
    order of the same graph the finisher writes the same files, and the
    specifiers and the drivers behind their texts are the same up to
    order. *)
Theorem finish_up_to_order (netdefs netdefs' : GHashTable net_definition)
        (rootdir : option string) (w : world) :
  Permutation netdefs netdefs' ->
  graph_ok netdefs ->
  udev_rules w = GNull ->
  all_writable rootdir w ->
  exists w1 w2,
    write_nm_conf_finish netdefs rootdir w = Done tt w1
    /\ write_nm_conf_finish netdefs' rootdir w = Done tt w2
    /\ w_files w1 = (w_files w ++ finish rootdir (w_umask w) (arbitrate netdefs))%list
    /\ w_files w2 = (w_files w ++ finish rootdir (w_umask w) (arbitrate netdefs'))%list
    /\ map a_path (w_files w1) = map a_path (w_files w2)
    /\ Permutation (specifier_set (arbitrate netdefs))
                   (specifier_set (arbitrate netdefs'))
    /\ Permutation (device_rules (arbitrate netdefs))
                   (device_rules (arbitrate netdefs')).
Proof.
  intros Hperm Hok Hu Hw.
  assert (Hok' : graph_ok netdefs') by exact (Permutation_Forall Hperm Hok).
  destruct (finish_refines netdefs rootdir w Hok Hu Hw) as (w1 & Hrun1 & Hf1 & _).
  destruct (finish_refines netdefs' rootdir w Hok' Hu Hw) as (w2 & Hrun2 & Hf2 & _).
  assert (Hs : Permutation (specifier_set (arbitrate netdefs))
                           (specifier_set (arbitrate netdefs')))
    by (apply Permutation_flat_map; exact Hperm).
  assert (Hd : Permutation (device_rules (arbitrate netdefs))
                           (device_rules (arbitrate netdefs')))
    by (apply Permutation_flat_map; exact Hperm).
  exists w1, w2. repeat split; auto.
  rewrite Hf1, Hf2, !map_app. f_equal. now apply finish_paths.
Qed.

Lemma finish_up_to_order_witness :
  exists w1 w2,
    write_nm_conf_finish graph_ab None fresh_world = Done tt w1
    /\ write_nm_conf_finish graph_ba None fresh_world = Done tt w2
    /\ w_files w1 = ([] ++ finish None 18 (arbitrate graph_ab))%list
    /\ w_files w2 = ([] ++ finish None 18 (arbitrate graph_ba))%list
    /\ map a_path (w_files w1) = map a_path (w_files w2)
    /\ Permutation (specifier_set (arbitrate graph_ab))
                   (specifier_set (arbitrate graph_ba))
    /\ Permutation (device_rules (arbitrate graph_ab))
                   (device_rules (arbitrate graph_ba)).
Proof.
  apply (finish_up_to_order graph_ab graph_ba None fresh_world).
  - apply perm_swap.
  - repeat constructor.
  - reflexivity.
  - intros path. reflexivity.
Defined.

(** C7 as stated fails: the same two definitions walked in the two
    possible orders give unmanaged-devices files that differ. *)
Lemma finish_follows_iteration_order :
  Permutation graph_ab graph_ba /\
  write_nm_conf_finish graph_ab None fresh_world
  = Done tt (add_files
               [mk_artifact None conf_d_path
                  (keyfile_header ++ "mac:aa:aa:aa:aa:aa:aa,mac:bb:bb:bb:bb:bb:bb,") 18]
               fresh_world) /\
  write_nm_conf_finish graph_ba None fresh_world
  = Done tt (add_files
               [mk_artifact None conf_d_path
                  (keyfile_header ++ "mac:bb:bb:bb:bb:bb:bb,mac:aa:aa:aa:aa:aa:aa,") 18]
               fresh_world) /\
  keyfile_header ++ "mac:aa:aa:aa:aa:aa:aa,mac:bb:bb:bb:bb:bb:bb,"
  <> keyfile_header ++ "mac:bb:bb:bb:bb:bb:bb,mac:aa:aa:aa:aa:aa:aa,".
Proof.
  split; [apply perm_swap |].
  split; [vm_compute; reflexivity |].
  split; [vm_compute; reflexivity |].
  vm_compute. discriminate.
Qed.

(** * Further properties of nm.c *)

(** ** The specifier encoder, all cases *)

Lemma starts_with_refl (s : string) : starts_with s s.
Proof.
  exists "". now rewrite append_nil_r.
Qed.

Lemma starts_with_app (p a b : string) : starts_with p a -> starts_with p (a ++ b).
Proof.
  intros [rest ->]. exists (rest ++ b). now rewrite append_assoc.
Qed.

Create HintDb prefix.
#[local] Hint Resolve starts_with_refl starts_with_app : prefix.

(** X1: on a physical definition without MAC match that has a rename
    target, the encoder appends [interface-name:] and the rename target,
    whatever the original name and the driver are. *)
Theorem encode_set_name_first (s : string) (def : net_definition) (n : string) :
  type def < ND_VIRTUAL ->
  mac (nd_match def) = None ->
  set_name def = Some n ->
  g_string_append_netdef_match s def = Some (s ++ "interface-name:" ++ n).
Proof.
  intros Ht Hm Hs. unfold g_string_append_netdef_match.
  rewrite Hm, Hs. cbn [is_set].
  replace (ND_VIRTUAL <=? type def) with false by (symmetry; apply Z.leb_gt; lia).
  rewrite orb_true_r. cbn. rewrite orb_true_r. reflexivity.
Qed.

Lemma encode_set_name_first_witness :
  g_string_append_netdef_match ""
    (mk_netdef ND_ETHERNET BACKEND_NETWORKD "lan" false false None true
       (mk_match (Some "e1000") None (Some "en*")) (Some "lan0") None)
  = Some "interface-name:lan0".
Proof.
  apply (encode_set_name_first "" _ "lan0").
  - vm_compute. reflexivity.
  - reflexivity.
  - reflexivity.
Defined.

(** X2: on a physical definition with no MAC match, no driver match and no
    rename target, the encoder appends [interface-name:] and the original
    name as it is, glob characters included. *)
Theorem encode_original_name (s : string) (def : net_definition) (n : string) :
  type def < ND_VIRTUAL ->
  mac (nd_match def) = None ->
  driver (nd_match def) = None ->
  set_name def = None ->
  original_name (nd_match def) = Some n ->
  g_string_append_netdef_match s def = Some (s ++ "interface-name:" ++ n).
Proof.
  intros Ht Hm Hd Hs Hn. unfold g_string_append_netdef_match.
  rewrite Hm, Hd, Hs, Hn. cbn.
  replace (ND_VIRTUAL <=? type def) with false by (symmetry; apply Z.leb_gt; lia).
  reflexivity.
Qed.

Lemma encode_original_name_witness :
  g_string_append_netdef_match "" eth_glob_networkd = Some "interface-name:en*".
Proof.
  apply (encode_original_name "" eth_glob_networkd "en*").
  - vm_compute. reflexivity.
  - reflexivity.
  - reflexivity.
  - reflexivity.
  - reflexivity.
Defined.

Lemma encode_defined_cases (s : string) (def : net_definition) :
  g_string_append_netdef_match s def <> None
  <-> driver_needs_set_name def /\ has_specifier def = true.
Proof.
  unfold g_string_append_netdef_match, driver_needs_set_name, has_specifier.
  destruct (driver (nd_match def)) as [d |], (set_name def) as [n |];
    cbn [is_set negb orb];
    destruct (mac (nd_match def)) as [m |]; cbn [is_set orb];
    destruct (original_name (nd_match def)) as [o |]; cbn [is_set orb];
    try rewrite !orb_true_r;
    try destruct (ND_VIRTUAL <=? type def); cbn [orb];
    try destruct (type def =? ND_ETHERNET);
    split;
    try (intros _; split; [(now left) || (right; discriminate) | reflexivity]);
    try discriminate;
    try (intros [[H | H] H']; congruence);
    try (intros H; exfalso; now apply H).
Qed.

(** X3: the encoder yields a specifier exactly when its precondition holds
    (no driver match without rename target) and the definition has a MAC
    match, a name, a rename target, a virtual type or the ethernet type;
    in every other case one of its two assertions fails. *)
Theorem encode_defined_iff (s : string) (def : net_definition) :
  g_string_append_netdef_match s def <> None
  <-> driver_needs_set_name def /\ has_specifier def = true.
Proof.
  exact (encode_defined_cases s def).
Qed.

(** X4: whatever the encoder appends leaves the buffer as it was in front,
    and is a [mac:] specifier, an [interface-name:] specifier, or the
    word [type:ethernet]. *)
Theorem encode_appends_a_specifier (s r : string) (def : net_definition) :
  g_string_append_netdef_match s def = Some r ->
  exists sp,
    r = s ++ sp
    /\ g_string_append_netdef_match "" def = Some sp
    /\ (starts_with "mac:" sp \/ starts_with "interface-name:" sp
        \/ sp = "type:ethernet").
Proof.
  unfold g_string_append_netdef_match.
  destruct (negb _); [discriminate |].
  destruct (mac (nd_match def)) as [m |].
  - intros [= <-]. exists ("mac:" ++ m). repeat split. left. now exists m.
  - destruct (_ || _).
    + intros [= <-]. eexists. repeat split. right; left. eexists; reflexivity.
    + destruct (_ =? _); [| discriminate].
      intros [= <-]. exists "type:ethernet". repeat split. now right; right.
Qed.

Lemma encode_appends_a_specifier_witness :
  exists sp,
    "unmanaged-devices+=type:ethernet" = "unmanaged-devices+=" ++ sp
    /\ g_string_append_netdef_match "" eth0_networkd = Some sp
    /\ (starts_with "mac:" sp \/ starts_with "interface-name:" sp
        \/ sp = "type:ethernet").
Proof.
  apply (encode_appends_a_specifier "unmanaged-devices+=" _ eth0_networkd).
  reflexivity.
Defined.

(** ** The renderer, every outcome *)

(** What the first part of the renderer does is decided by the definition
    alone: text that begins with the connection header, or the globbing
    diagnostic, or a failed assertion. *)
Lemma sections_verdict (def : net_definition) :
  (forall ap w, exists s,
      write_nm_conf_access_point_sections def ap w = Done s w
      /\ starts_with (connection_header def) s)
  \/ (forall ap w, write_nm_conf_access_point_sections def ap w
                   = Exited 1 (put_stderr (glob_diagnostic def) w))
  \/ (forall ap w, write_nm_conf_access_point_sections def ap w = Aborted w).
Proof.
  destruct def as [ty be i wol dh br hm [drv mc nm] sn aps].
  unfold write_nm_conf_access_point_sections, connection_header, glob_diagnostic,
    bind, asserted, ret, g_fprintf_stderr, exit.
  cbn [type id wake_on_lan dhcp4 bridge has_match nd_match set_name
       driver mac original_name].
  destruct (type_str ty) as [t |]; [| right; right; reflexivity].
  destruct (ty <? ND_VIRTUAL).
  - destruct sn as [n |]; [| destruct hm; [destruct nm as [n |];
      [destruct (strpbrk n "*[]?"); [right; left; reflexivity |] |] |]].
    all: destruct mc as [m |];
      try (destruct (ty =? ND_ETHERNET); [| destruct (ty =? ND_WIFI);
                                             [| right; right; reflexivity]]).
    all: left; intros ap w; eexists; (split; [reflexivity |]);
      destruct ap, br, dh; auto 12 with prefix.
  - left; intros ap w; eexists; (split; [reflexivity |]);
      destruct ap, br, dh; auto 12 with prefix.
Qed.

(** One call of [write_nm_conf_access_point]: a private connection file
    and the mask restored, or the globbing diagnostic, or a failed
    assertion, or a failed write; the first three leave no file. *)
Lemma access_point_outcomes (def : net_definition) (rootdir : option string)
      (ap : option wifi_access_point) (w : world) :
  match write_nm_conf_access_point def rootdir ap w with
  | Done _ w' => exists a, w' = set_umask (Z.land (w_umask w) 511)
                                          (add_file a (set_umask 63 w))
                           /\ private_connection def rootdir a
  | Exited n w' => n = 1 /\ w' = put_stderr (glob_diagnostic def) w
  | Aborted w' => w' = w
  | IOFailed w' => w' = set_umask 63 w
  | Undefined => False
  end.
Proof.
  unfold write_nm_conf_access_point.
  unfold bind at 1, g_assert.
  destruct (if type def =? ND_WIFI then is_set ap else negb (is_set ap));
    [| reflexivity].
  unfold bind at 1.
  destruct (sections_verdict def) as [Hok | [Hglob | Habort]].
  - destruct (Hok ap w) as (s0 & E & Hpre). rewrite E.
    cbv beta iota zeta.
    match goal with
    | |- context [ let '(p, s) := ?pair in _ ] =>
      destruct pair as [conf_path content] eqn:Hpair
    end.
    unfold bind, umask, g_string_free_to_file, ret.
    cbn [w_writable set_umask w_umask w_files w_stderr udev_rules].
    rewrite append_nil_r.
    destruct (w_writable w rootdir conf_path) eqn:Hw.
    + exists (mk_artifact rootdir conf_path content 63). split.
      * reflexivity.
      * unfold private_connection; cbn [a_rootdir a_umask a_path a_content].
        repeat split.
        -- destruct ap as [a |]; injection Hpair as <- _.
           ++ exists ("-" ++ g_uri_escape_string (ssid a) None true).
              now rewrite append_assoc.
           ++ apply starts_with_refl.
        -- destruct ap as [a |]; injection Hpair as _ <-.
           ++ destruct (mode a), (password a); auto 8 with prefix.
           ++ exact Hpre.
    + reflexivity.
  - rewrite Hglob. split; reflexivity.
  - rewrite Habort. reflexivity.
Qed.

Lemma restored_world (a : artifact) (w : world) :
  valid_umask w ->
  set_umask (Z.land (w_umask w) 511) (add_file a (set_umask 63 w)) = add_files [a] w.
Proof.
  intros Hm. unfold add_files, add_file, set_umask; cbn.
  now rewrite (land_umask _ Hm).
Qed.

(** Whether a call for an access point can leave or abort is decided by
    the definition alone. *)
Lemma access_point_uniform (def : net_definition) (rootdir : option string) :
  (forall ap w, match write_nm_conf_access_point def rootdir (Some ap) w with
                | Done _ _ | IOFailed _ => True
                | _ => False
                end)
  \/ (forall ap w, write_nm_conf_access_point def rootdir (Some ap) w
                    = Exited 1 (put_stderr (glob_diagnostic def) w))
  \/ (forall ap w, write_nm_conf_access_point def rootdir (Some ap) w = Aborted w).
Proof.
  unfold write_nm_conf_access_point. cbn [is_set negb].
  destruct (type def =? ND_WIFI); [| right; right; reflexivity].
  destruct (sections_verdict def) as [Hok | [Hglob | Habort]].
  - left. intros ap w. unfold bind at 1, g_assert. unfold bind at 1.
    destruct (Hok (Some ap) w) as (s0 & E & _). rewrite E.
    cbv beta iota zeta.
    unfold bind, umask, g_string_free_to_file, ret.
    match goal with
    | |- context [ if ?b then _ else _ ] => destruct b
    end; exact I.
  - right; left. intros ap w. unfold bind at 1, g_assert. unfold bind at 1.
    now rewrite Hglob.
  - right; right. intros ap w. unfold bind at 1, g_assert. unfold bind at 1.
    now rewrite Habort.
Qed.

(** The loop leaves or aborts only at its first access point. *)
Lemma each_outcomes (def : net_definition) (rootdir : option string)
      (aps : GHashTable wifi_access_point) (w : world) :
  match write_nm_conf_each def rootdir aps w with
  | Done _ _ | IOFailed _ => True
  | Exited n w' => n = 1 /\ w' = put_stderr (glob_diagnostic def) w
  | Aborted w' => w' = w
  | Undefined => False
  end.
Proof.
  destruct (access_point_uniform def rootdir) as [Hok | [Hglob | Habort]].
  - assert (H : match write_nm_conf_each def rootdir aps w with
                | Done _ _ | IOFailed _ => True
                | _ => False
                end).
    { revert w. induction aps as [| [key ap] rest IH]; intros w; [exact I |].
      cbn [write_nm_conf_each]. unfold bind at 1.
      specialize (Hok ap w).
      destruct (write_nm_conf_access_point def rootdir (Some ap) w);
        try contradiction; [apply IH | exact I]. }
    destruct (write_nm_conf_each def rootdir aps w); tauto.
  - destruct aps as [| [key ap] rest]; [exact I |].
    cbn [write_nm_conf_each]. unfold bind at 1. rewrite Hglob. now split.
  - destruct aps as [| [key ap] rest]; [exact I |].
    cbn [write_nm_conf_each]. unfold bind at 1. now rewrite Habort.
Qed.

(** The files of a loop that returns. *)
Lemma each_done (def : net_definition) (rootdir : option string)
      (aps : GHashTable wifi_access_point) :
  forall w, valid_umask w ->
  match write_nm_conf_each def rootdir aps w with
  | Done _ w' => exists arts, w' = add_files arts w
                              /\ length arts = length aps
                              /\ Forall (private_connection def rootdir) arts
  | _ => True
  end.
Proof.
  induction aps as [| [key ap] rest IH]; intros w Hm.
  - exists []. cbn. now rewrite add_files_nil.
  - cbn [write_nm_conf_each]. unfold bind at 1.
    pose proof (access_point_outcomes def rootdir (Some ap) w) as H1.
    destruct (write_nm_conf_access_point def rootdir (Some ap) w) as [[] w1 | | | |];
      try exact I.
    destruct H1 as (a & -> & Ha). rewrite (restored_world a w Hm).
    specialize (IH (add_files [a] w) Hm).
    destruct (write_nm_conf_each def rootdir rest (add_files [a] w)) as [[] w2 | | | |];
      try exact I.
    destruct IH as (arts & -> & Hlen & Hall).
    exists (a :: arts). rewrite add_files_app. cbn. repeat split; auto.
Qed.

(** [write_nm_conf] as a whole, for a definition of ours that passes the
    driver check. *)
Lemma write_nm_conf_checked (def : net_definition) (rootdir : option string) (w : world) :
  backend def = BACKEND_NM ->
  driver_needs_set_name def ->
  match write_nm_conf def rootdir w with
  | Done _ w' => valid_umask w ->
                 exists arts, w' = add_files arts w
                              /\ Forall (private_connection def rootdir) arts
  | Exited n w' => n = 1 /\ w' = put_stderr (glob_diagnostic def) w
  | Aborted w' => w' = w
  | IOFailed _ => True
  | Undefined => False
  end.
Proof.
  intros Hb Hpre. rewrite (write_nm_conf_ours def rootdir Hb Hpre).
  destruct (type def =? ND_WIFI).
  - unfold bind at 1, g_assert.
    destruct (access_points def) as [aps |]; cbn [is_set]; [| reflexivity].
    pose proof (each_outcomes def rootdir aps w) as H1.
    pose proof (each_done def rootdir aps w) as H2.
    destruct (write_nm_conf_each def rootdir aps w) as [[] w1 | | | |]; auto.
    intros Hm. destruct (H2 Hm) as (arts & -> & _ & Hall). now exists arts.
  - unfold bind at 1, g_assert.
    destruct (access_points def) as [aps |]; cbn [is_set negb]; [reflexivity |].
    pose proof (access_point_outcomes def rootdir None w) as H1.
    destruct (write_nm_conf_access_point def rootdir None w) as [[] w1 | | | |]; auto.
    intros Hm. destruct H1 as (a & -> & Ha).
    exists [a]. rewrite (restored_world a w Hm). split; [reflexivity | now constructor].
Qed.

Lemma write_nm_conf_driver (def : net_definition) (rootdir : option string) (w : world) :
  backend def = BACKEND_NM ->
  ~ driver_needs_set_name def ->
  write_nm_conf def rootdir w = Exited 1 (put_stderr (driver_diagnostic def) w).
Proof.
  intros Hb Hpre. unfold write_nm_conf, driver_needs_set_name in *. rewrite Hb.
  destruct (driver (nd_match def)); [| exfalso; apply Hpre; now left].
  destruct (set_name def); [exfalso; apply Hpre; right; discriminate |].
  reflexivity.
Qed.

Lemma driver_needs_set_name_dec (def : net_definition) :
  driver_needs_set_name def \/ ~ driver_needs_set_name def.
Proof.
  unfold driver_needs_set_name.
  destruct (driver (nd_match def)); [| now left; left].
  destruct (set_name def); [left; right; discriminate |].
  right. intros [H | H]; [discriminate | now apply H].
Qed.

Lemma write_nm_conf_foreign (def : net_definition) (rootdir : option string) (w : world) :
  backend def <> BACKEND_NM -> write_nm_conf def rootdir w = Done tt w.
Proof.
  intros Hb. unfold write_nm_conf.
  destruct (backend def); try reflexivity. congruence.
Qed.

Lemma backend_dec (def : net_definition) :
  backend def = BACKEND_NM \/ backend def <> BACKEND_NM.
Proof.
  destruct (backend def); [right | right | left]; congruence.
Qed.

(** X5: whenever the renderer returns, what it has added to the world is
    a list of connection files of this definition, each below the root it
    was given, named after the id inside the system-connections
    directory, created under mask 077 and beginning with the connection
    header; the mask, the diagnostics and the collected rules are as
    before. *)
Theorem render_done_private (def : net_definition) (rootdir : option string) (w : world) :
  valid_umask w ->
  match write_nm_conf def rootdir w with
  | Done _ w' => exists arts, w' = add_files arts w
                              /\ Forall (private_connection def rootdir) arts
  | _ => True
  end.
Proof.
  intros Hm.
  destruct (backend_dec def) as [Hb | Hb].
  - destruct (driver_needs_set_name_dec def) as [Hpre | Hpre].
    + pose proof (write_nm_conf_checked def rootdir w Hb Hpre) as H.
      destruct (write_nm_conf def rootdir w); auto.
    + now rewrite (write_nm_conf_driver def rootdir w Hb Hpre).
  - rewrite (write_nm_conf_foreign def rootdir w Hb).
    exists []. now rewrite add_files_nil.
Qed.

Lemma render_done_private_witness :
  match write_nm_conf wlan_two (Some "/tmp/root") fresh_world with
  | Done _ w' => exists arts, w' = add_files arts fresh_world
                              /\ Forall (private_connection wlan_two (Some "/tmp/root")) arts
  | _ => True
  end.
Proof.
  apply (render_done_private wlan_two (Some "/tmp/root") fresh_world).
  unfold valid_umask. cbn. lia.
Defined.

(** X6: whenever the renderer leaves through [exit], the status is 1,
    and the world differs from the one it started in by one diagnostic
    only, the one about driver matching or the one about globbing: no
    file was written and the mask was not touched. *)
Theorem render_exit_clean (def : net_definition) (rootdir : option string) (w : world) :
  match write_nm_conf def rootdir w with
  | Exited n w' => n = 1 /\ (w' = put_stderr (driver_diagnostic def) w
                             \/ w' = put_stderr (glob_diagnostic def) w)
  | _ => True
  end.
Proof.
  destruct (backend_dec def) as [Hb | Hb].
  - destruct (driver_needs_set_name_dec def) as [Hpre | Hpre].
    + pose proof (write_nm_conf_checked def rootdir w Hb Hpre) as H.
      destruct (write_nm_conf def rootdir w); auto.
      destruct H as [-> ->]. split; [reflexivity | now right].
    + rewrite (write_nm_conf_driver def rootdir w Hb Hpre).
      split; [reflexivity | now left].
  - now rewrite (write_nm_conf_foreign def rootdir w Hb).
Qed.

(** X7: whenever an assertion stops the renderer, no file has been
    written and the mask has not been touched; and the renderer never
    touches released memory. *)
Theorem render_abort_clean (def : net_definition) (rootdir : option string) (w : world) :
  match write_nm_conf def rootdir w with
  | Aborted w' => w_files w' = w_files w /\ w_umask w' = w_umask w
  | Undefined => False
  | _ => True
  end.
Proof.
  destruct (backend_dec def) as [Hb | Hb].
  - destruct (driver_needs_set_name_dec def) as [Hpre | Hpre].
    + pose proof (write_nm_conf_checked def rootdir w Hb Hpre) as H.
      destruct (write_nm_conf def rootdir w); auto.
      subst. now split.
    + now rewrite (write_nm_conf_driver def rootdir w Hb Hpre).
  - now rewrite (write_nm_conf_foreign def rootdir w Hb).
Qed.

(** ** The renderer, by kind of definition *)

Ltac flatten_text :=
  repeat (progress (cbn; rewrite ?append_assoc, ?append_nil_r)).

(** A definition that is not a wifi one, is ours and passes the driver
    check gets one file, named after its id, with the text of the first
    part of the renderer. *)
Lemma render_single (def : net_definition) (rootdir : option string)
      (s : string) (w : world) :
  backend def = BACKEND_NM ->
  driver_needs_set_name def ->
  (type def =? ND_WIFI) = false ->
  access_points def = None ->
  (forall w0, write_nm_conf_access_point_sections def None w0 = Done s w0) ->
  all_writable rootdir w ->
  valid_umask w ->
  write_nm_conf def rootdir w
  = Done tt (add_files [mk_artifact rootdir (system_connections ++ id def) s 63] w).
Proof.
  intros Hb Hpre Ht Ha Hs Hw Hm.
  rewrite (write_nm_conf_ours def rootdir Hb Hpre), Ht, Ha.
  unfold bind at 1, g_assert. cbn [is_set negb].
  unfold write_nm_conf_access_point. rewrite Ht. cbn [is_set negb].
  unfold bind at 1, g_assert. unfold bind at 1. rewrite Hs.
  cbv beta iota zeta.
  unfold bind, umask, g_string_free_to_file, ret.
  cbn [w_writable set_umask w_umask w_files w_stderr udev_rules].
  rewrite append_nil_r, Hw.
  now rewrite <- (restored_world _ w Hm).
Qed.

(** X8: a bridge of ours that passes the driver check is rendered into one
    file whose text is made of its id, its parent bridge and its DHCP
    flag only: the interface name is the id, there is no [ethernet]
    section and no MAC section, and neither the match fields (a globbing
    name included), nor the rename target, nor the wake-on-lan flag show
    in it. *)
Theorem render_bridge (def : net_definition) (rootdir : option string) (w : world) :
  backend def = BACKEND_NM ->
  type def = ND_BRIDGE ->
  access_points def = None ->
  driver_needs_set_name def ->
  all_writable rootdir w ->
  valid_umask w ->
  write_nm_conf def rootdir w
  = Done tt (add_files
               [mk_artifact rootdir (system_connections ++ id def)
                  (connection_header def ++ nl ++ "type=bridge" ++ nl
                   ++ "interface-name=" ++ id def ++ nl
                   ++ bridge_lines def ++ dhcp_section def) 63] w).
Proof.
  intros Hb Ht Ha Hpre Hw Hm.
  apply render_single; auto; [now rewrite Ht |].
  intros w0. destruct def as [ty be i wol dh br hm [drv mc nm] sn aps].
  cbn in Ht. subst ty.
  unfold write_nm_conf_access_point_sections, connection_header, bridge_lines,
    dhcp_section, bind, asserted, ret.
  cbn. destruct br, dh; flatten_text; reflexivity.
Qed.

Lemma render_bridge_witness :
  write_nm_conf br0_nm None fresh_world
  = Done tt (add_files
               [mk_artifact None (system_connections ++ "br0")
                  ("[connection]" ++ nl ++ "id=ubuntu-network-br0" ++ nl
                   ++ "type=bridge" ++ nl ++ "interface-name=br0" ++ nl
                   ++ nl ++ "[ipv4]" ++ nl ++ "method=auto" ++ nl) 63] fresh_world).
Proof.
  apply (render_bridge br0_nm None fresh_world).
  - reflexivity.
  - reflexivity.
  - reflexivity.
  - left. reflexivity.
  - intros path. reflexivity.
  - unfold valid_umask. cbn. lia.
Defined.

(** X9: an ethernet definition of ours with a rename target is rendered
    into one file that binds the interface by the rename target; the
    original name is not looked at (so a glob in it is no error) and a
    MAC match gives no MAC section. *)
Theorem render_renamed_ethernet (def : net_definition) (rootdir : option string)
        (n : string) (w : world) :
  backend def = BACKEND_NM ->
  type def = ND_ETHERNET ->
  access_points def = None ->
  set_name def = Some n ->
  all_writable rootdir w ->
  valid_umask w ->
  write_nm_conf def rootdir w
  = Done tt (add_files
               [mk_artifact rootdir (system_connections ++ id def)
                  (connection_header def ++ nl ++ "type=ethernet" ++ nl
                   ++ "interface-name=" ++ n ++ nl
                   ++ bridge_lines def ++ ethernet_section def
                   ++ dhcp_section def) 63] w).
Proof.
  intros Hb Ht Ha Hs Hw Hm.
  apply render_single; auto;
    [right; rewrite Hs; discriminate | now rewrite Ht |].
  intros w0. destruct def as [ty be i wol dh br hm [drv mc nm] sn aps].
  cbn in Ht, Hs. subst ty sn.
  unfold write_nm_conf_access_point_sections, connection_header, bridge_lines,
    dhcp_section, ethernet_section, bind, asserted, ret.
  cbn. destruct br, dh, wol; flatten_text; reflexivity.
Qed.

Lemma render_renamed_ethernet_witness :
  write_nm_conf eth_renamed None fresh_world
  = Done tt (add_files
               [mk_artifact None (system_connections ++ "lan")
                  ("[connection]" ++ nl ++ "id=ubuntu-network-lan" ++ nl
                   ++ "type=ethernet" ++ nl ++ "interface-name=lan0" ++ nl
                   ++ "slave-type=bridge" ++ nl ++ "master=br0" ++ nl
                   ++ nl ++ "[ethernet]" ++ nl ++ "wake-on-lan=1" ++ nl) 63]
               fresh_world).
Proof.
  apply (render_renamed_ethernet eth_renamed None "lan0" fresh_world).
  - reflexivity.
  - reflexivity.
  - reflexivity.
  - reflexivity.
  - intros path. reflexivity.
  - unfold valid_umask. cbn. lia.
Defined.

(** X10: an ethernet definition of ours that is matched by MAC address
    only (no rename target, no driver, no original name) is rendered into
    one file without any interface-name line; the binding is the
    [802-3-ethernet] section with the MAC address. *)
Theorem render_mac_ethernet (def : net_definition) (rootdir : option string)
        (m : string) (w : world) :
  backend def = BACKEND_NM ->
  type def = ND_ETHERNET ->
  access_points def = None ->
  set_name def = None ->
  has_match def = true ->
  nd_match def = mk_match None (Some m) None ->
  all_writable rootdir w ->
  valid_umask w ->
  write_nm_conf def rootdir w
  = Done tt (add_files
               [mk_artifact rootdir (system_connections ++ id def)
                  (connection_header def ++ nl ++ "type=ethernet" ++ nl
                   ++ bridge_lines def ++ ethernet_section def
                   ++ nl ++ "[802-3-ethernet]" ++ nl
                   ++ "mac-address=" ++ m ++ nl
                   ++ dhcp_section def) 63] w).
Proof.
  intros Hb Ht Ha Hs Hhm Hmatch Hw Hm.
  apply render_single; auto;
    [left; now rewrite Hmatch | now rewrite Ht |].
  intros w0. destruct def as [ty be i wol dh br hm mt sn aps].
  cbn in Ht, Hs, Hhm, Hmatch. subst ty sn hm mt.
  unfold write_nm_conf_access_point_sections, connection_header, bridge_lines,
    dhcp_section, ethernet_section, bind, asserted, ret.
  cbn. destruct br, dh, wol; flatten_text; reflexivity.
Qed.

Lemma render_mac_ethernet_witness :
  write_nm_conf eth_by_mac None fresh_world
  = Done tt (add_files
               [mk_artifact None (system_connections ++ "lan")
                  ("[connection]" ++ nl ++ "id=ubuntu-network-lan" ++ nl
                   ++ "type=ethernet" ++ nl
                   ++ nl ++ "[ethernet]" ++ nl ++ "wake-on-lan=0" ++ nl
                   ++ nl ++ "[802-3-ethernet]" ++ nl
                   ++ "mac-address=00:11:22:33:44:55" ++ nl
                   ++ nl ++ "[ipv4]" ++ nl ++ "method=auto" ++ nl) 63]
               fresh_world).
Proof.
  apply (render_mac_ethernet eth_by_mac None "00:11:22:33:44:55" fresh_world).
  - reflexivity.
  - reflexivity.
  - reflexivity.
  - reflexivity.
  - reflexivity.
  - reflexivity.
  - intros path. reflexivity.
  - unfold valid_umask. cbn. lia.
Defined.

(** X11: an ethernet definition of ours without match and without rename
    target is bound to the interface whose name is the id. *)
Theorem render_plain_ethernet (def : net_definition) (rootdir : option string)
        (w : world) :
  backend def = BACKEND_NM ->
  type def = ND_ETHERNET ->
  access_points def = None ->
  set_name def = None ->
  has_match def = false ->
  nd_match def = mk_match None None None ->
  all_writable rootdir w ->
  valid_umask w ->
  write_nm_conf def rootdir w
  = Done tt (add_files
               [mk_artifact rootdir (system_connections ++ id def)
                  (connection_header def ++ nl ++ "type=ethernet" ++ nl
                   ++ "interface-name=" ++ id def ++ nl
                   ++ bridge_lines def ++ ethernet_section def
                   ++ dhcp_section def) 63] w).
Proof.
  intros Hb Ht Ha Hs Hhm Hmatch Hw Hm.
  apply render_single; auto;
    [left; now rewrite Hmatch | now rewrite Ht |].
  intros w0. destruct def as [ty be i wol dh br hm mt sn aps].
  cbn in Ht, Hs, Hhm, Hmatch. subst ty sn hm mt.
  unfold write_nm_conf_access_point_sections, connection_header, bridge_lines,
    dhcp_section, ethernet_section, bind, asserted, ret.
  cbn. destruct br, dh, wol; flatten_text; reflexivity.
Qed.

Lemma render_plain_ethernet_witness :
  write_nm_conf eth_plain (Some "/tmp/root") fresh_world
  = Done tt (add_files
               [mk_artifact (Some "/tmp/root") (system_connections ++ "eth0")
                  ("[connection]" ++ nl ++ "id=ubuntu-network-eth0" ++ nl
                   ++ "type=ethernet" ++ nl ++ "interface-name=eth0" ++ nl
                   ++ nl ++ "[ethernet]" ++ nl ++ "wake-on-lan=0" ++ nl
                   ++ nl ++ "[ipv4]" ++ nl ++ "method=auto" ++ nl) 63]
               fresh_world).
Proof.
  apply (render_plain_ethernet eth_plain (Some "/tmp/root") fresh_world).
  - reflexivity.
  - reflexivity.
  - reflexivity.
  - reflexivity.
  - reflexivity.
  - reflexivity.
  - intros path. reflexivity.
  - unfold valid_umask. cbn. lia.
Defined.

(** X23: an ethernet definition of ours that is matched by a name without
    glob character (no rename target, no driver) is bound to the
    interface of that name, and to the MAC address as well when the match
    has one. *)
Theorem render_named_ethernet (def : net_definition) (rootdir : option string)
        (n : string) (w : world) :
  backend def = BACKEND_NM ->
  type def = ND_ETHERNET ->
  access_points def = None ->
  set_name def = None ->
  has_match def = true ->
  driver (nd_match def) = None ->
  original_name (nd_match def) = Some n ->
  ~ has_glob_char n ->
  all_writable rootdir w ->
  valid_umask w ->
  write_nm_conf def rootdir w
  = Done tt (add_files
               [mk_artifact rootdir (system_connections ++ id def)
                  (connection_header def ++ nl ++ "type=ethernet" ++ nl
                   ++ "interface-name=" ++ n ++ nl
                   ++ bridge_lines def ++ ethernet_section def
                   ++ match mac (nd_match def) with
                      | Some m => nl ++ "[802-3-ethernet]" ++ nl
                                     ++ "mac-address=" ++ m ++ nl
                      | None => ""
                      end
                   ++ dhcp_section def) 63] w).
Proof.
  intros Hb Ht Ha Hs Hhm Hd Hn Hglob Hw Hm.
  assert (Hno : strpbrk n "*[]?" = false).
  { destruct (strpbrk n "*[]?") eqn:E; [| reflexivity].
    exfalso. apply Hglob. now apply strpbrk_glob. }
  apply render_single; auto; [now left | now rewrite Ht |].
  intros w0. destruct def as [ty be i wol dh br hm [drv mc nm] sn aps].
  cbn in Ht, Hs, Hhm, Hd, Hn. subst ty sn hm drv nm.
  unfold write_nm_conf_access_point_sections, connection_header, bridge_lines,
    dhcp_section, ethernet_section, bind, asserted, ret.
  cbn [type id wake_on_lan dhcp4 bridge has_match nd_match set_name
       driver mac original_name].
  rewrite Hno.
  cbn. destruct br, dh, wol, mc; flatten_text; reflexivity.
Qed.

Lemma render_named_ethernet_witness :
  write_nm_conf eth_by_name None fresh_world
  = Done tt (add_files
               [mk_artifact None (system_connections ++ "lan")
                  ("[connection]" ++ nl ++ "id=ubuntu-network-lan" ++ nl
                   ++ "type=ethernet" ++ nl ++ "interface-name=enp3s0" ++ nl
                   ++ nl ++ "[ethernet]" ++ nl ++ "wake-on-lan=0" ++ nl) 63]
               fresh_world).
Proof.
  apply (render_named_ethernet eth_by_name None "enp3s0" fresh_world).
  - reflexivity.
  - reflexivity.
  - reflexivity.
  - reflexivity.
  - reflexivity.
  - reflexivity.
  - reflexivity.
  - intros H. apply strpbrk_glob in H. discriminate H.
  - intros path. reflexivity.
  - unfold valid_umask. cbn. lia.
Defined.

Lemma unknown_type_aborts (def : net_definition) (rootdir : option string)
      (w : world) :
  backend def = BACKEND_NM ->
  driver_needs_set_name def ->
  type def <> ND_ETHERNET ->
  type def <> ND_WIFI ->
  type def <> ND_BRIDGE ->
  write_nm_conf def rootdir w = Aborted w.
Proof.
  intros Hb Hpre He Hw Hbr.
  rewrite (write_nm_conf_ours def rootdir Hb Hpre).
  apply Z.eqb_neq in He, Hw, Hbr. rewrite Hw.
  unfold bind at 1, g_assert.
  destruct (access_points def); cbn [is_set negb]; [reflexivity |].
  unfold write_nm_conf_access_point. rewrite Hw. cbn [is_set negb].
  unfold bind at 1, g_assert. unfold bind at 1.
  unfold write_nm_conf_access_point_sections, type_str.
  rewrite He, Hw, Hbr. reflexivity.
Qed.

(** X12: a definition of ours that passes the driver check and whose type
    is neither ethernet nor wifi nor bridge stops the renderer at an
    assertion, before any file is written and before the mask is
    touched. *)
Theorem render_unknown_type_aborts (def : net_definition) (rootdir : option string)
        (w : world) :
  backend def = BACKEND_NM ->
  driver_needs_set_name def ->
  type def <> ND_ETHERNET ->
  type def <> ND_WIFI ->
  type def <> ND_BRIDGE ->
  exists w',
    write_nm_conf def rootdir w = Aborted w'
    /\ w_files w' = w_files w
    /\ w_umask w' = w_umask w.
Proof.
  intros Hb Hpre He Hw Hbr. exists w.
  rewrite (unknown_type_aborts def rootdir w Hb Hpre He Hw Hbr).
  repeat split.
Qed.

Lemma render_unknown_type_aborts_witness :
  exists w',
    write_nm_conf vlan_like None fresh_world = Aborted w'
    /\ w_files w' = []
    /\ w_umask w' = 18.
Proof.
  apply (render_unknown_type_aborts vlan_like None fresh_world).
  - reflexivity.
  - left. reflexivity.
  - discriminate.
  - discriminate.
  - discriminate.
Defined.

Lemma table_mismatch_aborts (def : net_definition) (rootdir : option string)
      (w : world) :
  backend def = BACKEND_NM ->
  driver_needs_set_name def ->
  (type def = ND_WIFI /\ access_points def = None) \/
  (type def <> ND_WIFI /\ access_points def <> None) ->
  write_nm_conf def rootdir w = Aborted w.
Proof.
  intros Hb Hpre H.
  rewrite (write_nm_conf_ours def rootdir Hb Hpre).
  destruct H as [[Ht Ha] | [Ht Ha]].
  - rewrite Ht, Ha. reflexivity.
  - apply Z.eqb_neq in Ht. rewrite Ht.
    destruct (access_points def); [reflexivity | congruence].
Qed.

(** X13: for a definition of ours that passes the driver check, a wifi
    type without a table of access points, and any other type with one,
    stop the renderer at an assertion, before any file is written and
    before the mask is touched. *)
Theorem render_table_mismatch_aborts (def : net_definition) (rootdir : option string)
        (w : world) :
  backend def = BACKEND_NM ->
  driver_needs_set_name def ->
  (type def = ND_WIFI /\ access_points def = None) \/
  (type def <> ND_WIFI /\ access_points def <> None) ->
  exists w',
    write_nm_conf def rootdir w = Aborted w'
    /\ w_files w' = w_files w
    /\ w_umask w' = w_umask w.
Proof.
  intros Hb Hpre H. exists w.
  rewrite (table_mismatch_aborts def rootdir w Hb Hpre H).
  repeat split.
Qed.

Lemma render_table_mismatch_aborts_witness :
  exists w',
    write_nm_conf wlan_missing_table None fresh_world = Aborted w'
    /\ w_files w' = []
    /\ w_umask w' = 18.
Proof.
  apply (render_table_mismatch_aborts wlan_missing_table None fresh_world).
  - reflexivity.
  - left. reflexivity.
  - left. split; reflexivity.
Defined.

(** The first part of the renderer ends with the DHCP section. *)
Lemma sections_end_with_dhcp (def : net_definition) (ap : option wifi_access_point)
      (s : string) (w : world) :
  write_nm_conf_access_point_sections def ap w = Done s w ->
  exists pre, s = pre ++ dhcp_section def.
Proof.
  destruct def as [ty be i wol dh br hm [drv mc nm] sn aps].
  unfold write_nm_conf_access_point_sections, dhcp_section,
    bind, asserted, ret, g_fprintf_stderr, exit.
  cbn [type id wake_on_lan dhcp4 bridge has_match nd_match set_name
       driver mac original_name].
  destruct (type_str ty) as [t |]; [| discriminate].
  destruct (ty <? ND_VIRTUAL).
  - destruct sn as [n |]; [| destruct hm; [destruct nm as [n |];
      [destruct (strpbrk n "*[]?"); [discriminate |] |] |]].
    all: destruct mc as [m |];
      try (destruct (ty =? ND_ETHERNET); [| destruct (ty =? ND_WIFI);
                                             [| discriminate]]).
    all: destruct dh; intros [= <-]; eexists;
      [reflexivity | rewrite append_nil_r; reflexivity].
  - destruct dh; intros [= <-]; eexists;
      [reflexivity | rewrite append_nil_r; reflexivity].
Qed.

(** The physical-link sections of a wifi definition. *)
Lemma sections_wifi_link (def : net_definition) (ap : option wifi_access_point)
      (s : string) (w : world) :
  type def = ND_WIFI ->
  write_nm_conf_access_point_sections def ap w = Done s w ->
  contains (ethernet_section def) s
  /\ (forall m, set_name def = None -> mac (nd_match def) = Some m ->
      contains (nl ++ "[802-11-wireless]" ++ nl ++ "mac-address=" ++ m ++ nl) s).
Proof.
  destruct def as [ty be i wol dh br hm [drv mc nm] sn aps].
  cbn [type]. intros ->.
  unfold write_nm_conf_access_point_sections, ethernet_section,
    bind, asserted, ret, g_fprintf_stderr, exit.
  cbn [type id wake_on_lan dhcp4 bridge has_match nd_match set_name
       driver mac original_name].
  change (type_str ND_WIFI) with (Some "wifi").
  change (ND_WIFI <? ND_VIRTUAL) with true.
  change (ND_WIFI =? ND_ETHERNET) with false.
  change (ND_WIFI =? ND_WIFI) with true.
  cbv iota.
  assert (Hmac : forall x m,
             contains (nl ++ "[802-11-wireless]" ++ nl ++ "mac-address=" ++ m ++ nl)
                      ((x ++ nl ++ "[802-11-wireless]" ++ nl) ++ "mac-address=" ++ m ++ nl)).
  { intros x m. exists x, "". now rewrite append_assoc, append_nil_r. }
  destruct sn as [n |]; [| destruct hm; [destruct nm as [n |];
    [destruct (strpbrk n "*[]?"); [discriminate |] |] |]].
  all: destruct mc as [m |]; destruct dh; intros [= <-]; split;
    try (intros m' Hs' [= <-]); try discriminate;
    auto 8 with contains.
Qed.

(** The file of one access point of a wifi definition, from the text of
    the first part. *)
Lemma write_access_point_text (def : net_definition) (rootdir : option string)
      (ap : wifi_access_point) (s0 : string) (w : world) :
  type def = ND_WIFI ->
  write_nm_conf_access_point_sections def (Some ap) w = Done s0 w ->
  all_writable rootdir w ->
  valid_umask w ->
  write_nm_conf_access_point def rootdir (Some ap) w
  = Done tt (add_files
               [mk_artifact rootdir
                  (system_connections ++ id def ++ "-"
                     ++ g_uri_escape_string (ssid ap) None true)
                  (wifi_text s0 ap) 63] w).
Proof.
  intros Ht Hs Hw Hm. unfold write_nm_conf_access_point.
  rewrite Ht. cbn [Z.eqb ND_WIFI Pos.eqb is_set g_assert].
  unfold bind at 1. cbn [g_assert].
  rewrite (bind_Done _ _ w w s0 Hs).
  cbv beta iota zeta.
  unfold bind, umask, g_string_free_to_file, ret.
  cbn [w_writable set_umask w_umask w_files w_stderr udev_rules].
  rewrite append_nil_r, Hw.
  now rewrite <- (restored_world _ w Hm).
Qed.

Lemma sections_ok_wifi (def : net_definition) (ap : option wifi_access_point) (w : world) :
  type def = ND_WIFI ->
  name_globbed def = false ->
  exists s, write_nm_conf_access_point_sections def ap w = Done s w.
Proof.
  intros Ht Hg. apply sections_ok; [rewrite Ht; discriminate | exact Hg].
Qed.

(** X14: for a wifi definition with DHCP, an access point in access-point
    mode gets a file with two IPv4 sections, the one with method "auto"
    immediately followed by the one with method "shared": the second is
    added, the first is not taken out. *)
Theorem wifi_dhcp_then_shared (def : net_definition) (rootdir : option string)
        (ap : wifi_access_point) (w : world) :
  type def = ND_WIFI ->
  dhcp4 def = true ->
  mode ap = WIFI_MODE_AP ->
  name_globbed def = false ->
  all_writable rootdir w ->
  valid_umask w ->
  exists a pre post,
    write_nm_conf_access_point def rootdir (Some ap) w = Done tt (add_files [a] w)
    /\ a_content a = pre ++ (nl ++ "[ipv4]" ++ nl ++ "method=auto" ++ nl)
                         ++ (nl ++ "[ipv4]" ++ nl ++ "method=shared" ++ nl) ++ post.
Proof.
  intros Ht Hd Hmode Hg Hw Hm.
  destruct (sections_ok_wifi def (Some ap) w Ht Hg) as [s0 Hs0].
  destruct (sections_end_with_dhcp def (Some ap) s0 w Hs0) as [pre Hpre].
  unfold dhcp_section in Hpre. rewrite Hd in Hpre.
  eexists. exists pre.
  exists ((nl ++ "[wifi]" ++ nl ++ "ssid=" ++ ssid ap ++ nl
             ++ "mode=" ++ wifi_mode_str (mode ap) ++ nl)
          ++ match password ap with
             | Some pw => nl ++ "[wifi-security]" ++ nl
                             ++ "key-mgmt=wpa-psk" ++ nl ++ "psk=" ++ pw ++ nl
             | None => ""
             end).
  split; [exact (write_access_point_text def rootdir ap s0 w Ht Hs0 Hw Hm) |].
  cbn [a_content]. unfold wifi_text. rewrite Hmode, Hpre.
  destruct (password ap); rewrite ?append_nil_r, !append_assoc; reflexivity.
Qed.

Lemma wifi_dhcp_then_shared_witness :
  exists a pre post,
    write_nm_conf_access_point wlan_dhcp_ap None (Some home_ap) fresh_world
    = Done tt (add_files [a] fresh_world)
    /\ a_content a = pre ++ (nl ++ "[ipv4]" ++ nl ++ "method=auto" ++ nl)
                         ++ (nl ++ "[ipv4]" ++ nl ++ "method=shared" ++ nl) ++ post.
Proof.
  apply (wifi_dhcp_then_shared wlan_dhcp_ap None home_ap fresh_world).
  - reflexivity.
  - reflexivity.
  - reflexivity.
  - reflexivity.
  - intros path. reflexivity.
  - unfold valid_umask. cbn. lia.
Defined.

(** X15: the file of an access point of a wifi definition has, like that
    of an ethernet definition, an [ethernet] section with the wake-on-lan
    flag; and when the definition has a MAC match and no rename target,
    the MAC address is bound in an [802-11-wireless] section. *)
Theorem wifi_link_sections (def : net_definition) (rootdir : option string)
        (ap : wifi_access_point) (w : world) :
  type def = ND_WIFI ->
  name_globbed def = false ->
  all_writable rootdir w ->
  valid_umask w ->
  exists a,
    write_nm_conf_access_point def rootdir (Some ap) w = Done tt (add_files [a] w)
    /\ contains (ethernet_section def) (a_content a)
    /\ (forall m, set_name def = None -> mac (nd_match def) = Some m ->
        contains (nl ++ "[802-11-wireless]" ++ nl ++ "mac-address=" ++ m ++ nl)
                 (a_content a)).
Proof.
  intros Ht Hg Hw Hm.
  destruct (sections_ok_wifi def (Some ap) w Ht Hg) as [s0 Hs0].
  destruct (sections_wifi_link def (Some ap) s0 w Ht Hs0) as [He Hmac].
  eexists. split; [exact (write_access_point_text def rootdir ap s0 w Ht Hs0 Hw Hm) |].
  cbn [a_content]. unfold wifi_text.
  split.
  - destruct (mode ap), (password ap); auto 8 with contains.
  - intros m Hs Hmc. specialize (Hmac m Hs Hmc).
    destruct (mode ap), (password ap); auto 8 with contains.
Qed.

Lemma wifi_link_sections_witness :
  exists a,
    write_nm_conf_access_point wlan_dhcp_ap None (Some home_ap) fresh_world
    = Done tt (add_files [a] fresh_world)
    /\ contains (ethernet_section wlan_dhcp_ap) (a_content a)
    /\ (forall m, set_name wlan_dhcp_ap = None ->
        mac (nd_match wlan_dhcp_ap) = Some m ->
        contains (nl ++ "[802-11-wireless]" ++ nl ++ "mac-address=" ++ m ++ nl)
                 (a_content a)).
Proof.
  apply (wifi_link_sections wlan_dhcp_ap None home_ap fresh_world).
  - reflexivity.
  - reflexivity.
  - intros path. reflexivity.
  - unfold valid_umask. cbn. lia.
Defined.

(** ** The escaped SSID as a file name *)

Lemma hex_safe (c : ascii) :
  file_name_safe (hex (Z.shiftr (byte_val c) 4)) = true
  /\ file_name_safe (hex (Z.land (byte_val c) 15)) = true.
Proof.
  destruct c as [[] [] [] [] [] [] [] []]; vm_compute; split; reflexivity.
Qed.

Lemma is_valid_safe (c : ascii) : is_valid c None = true -> file_name_safe c = true.
Proof.
  unfold is_valid, file_name_safe. rewrite orb_false_r. intros ->. reflexivity.
Qed.

Lemma escape_alphabet (b : bool) (s : string) :
  forall k, high_bytes k s ->
  forall c, In c (list_ascii_of_string (uri_escape_from k None b s)) ->
  128 <= byte_val c \/ file_name_safe c = true.
Proof.
  induction s as [| c0 rest IH]; intros k Hk c Hin; [destruct Hin |].
  destruct k as [| k]; cbn [uri_escape_from] in Hin.
  - destruct ((128 <=? byte_val c0) && b && utf8_char_ok (String c0 rest)) eqn:Hutf.
    + apply andb_prop in Hutf as [Hutf Hok]. apply andb_prop in Hutf as [Hge _].
      apply Z.leb_le in Hge.
      destruct Hin as [<- | Hin]; [now left |].
      apply (IH _ (utf8_char_ok_high c0 rest Hok) c Hin).
    + destruct (is_valid c0 None) eqn:Hv.
      * destruct Hin as [<- | Hin]; [right; now apply is_valid_safe |].
        apply (IH 0%nat I c Hin).
      * destruct (hex_safe c0) as [Hh Hl].
        destruct Hin as [<- | [<- | [<- | Hin]]]; [now right | now right | now right |].
        apply (IH 0%nat I c Hin).
  - destruct Hk as [Hge Hk].
    destruct Hin as [<- | Hin]; [now left |].
    apply (IH k Hk c Hin).
Qed.

(** X16: every ASCII character of the escaped SSID that goes into the file
    name is a letter, a digit, or one of [-], [.], [_], [~] and [%]; in
    particular there is no slash in it. *)
Theorem escaped_ssid_is_file_name_safe (name : string) (c : ascii) :
  In c (list_ascii_of_string (g_uri_escape_string name None true)) ->
  byte_val c < 128 ->
  file_name_safe c = true /\ c <> "/"%char.
Proof.
  intros Hin Hlt.
  destruct (escape_alphabet true name 0 I c Hin) as [H | H]; [lia |].
  split; [exact H |]. intros ->. discriminate H.
Qed.

Lemma escaped_ssid_is_file_name_safe_witness :
  file_name_safe "%" = true /\ "%"%char <> "/"%char.
Proof.
  apply (escaped_ssid_is_file_name_safe "Cafe /2" "%").
  - vm_compute. right; right; right; right. now left.
  - vm_compute. reflexivity.
Defined.

(** ** The aggregator, every outcome *)

Lemma no_specifier_aborts (str : string) (nd : net_definition) :
  has_specifier nd = false -> g_string_append_netdef_match str nd = None.
Proof.
  intros H. destruct (g_string_append_netdef_match str nd) eqn:E; [| reflexivity].
  assert (Hd : g_string_append_netdef_match str nd <> None) by (rewrite E; discriminate).
  apply encode_defined_cases in Hd as [_ Hd]. congruence.
Qed.

(** One step of the walk: it goes on, with the rules pointer as the only
    part of the world that may have changed, or an assertion stops it. *)
Lemma nd_append_step (key : string) (nd : net_definition) (str : string) (w : world) :
  udev_rules w <> GFreed ->
  if excludable nd
  then exists str' p, nd_append_non_nm_ids key nd str w = Done str' (set_udev_rules p w)
                      /\ p <> GFreed
  else nd_append_non_nm_ids key nd str w = Aborted w.
Proof.
  intros Hu. unfold excludable, nd_append_non_nm_ids.
  destruct (is_BACKEND_NM (backend nd)); cbn [negb orb].
  - exists str, (udev_rules w). now rewrite set_udev_rules_same.
  - destruct (driver (nd_match nd)) as [drv |] eqn:Hd; cbn [is_set orb].
    + destruct (udev_rules w) eqn:E; [| | congruence]; eexists; eexists;
        (split; [reflexivity | discriminate]).
    + destruct (has_specifier nd) eqn:Hs.
      * destruct (has_specifier_encodes nd Hd Hs) as [sp Hsp].
        rewrite encode_append, Hsp. cbn [option_map].
        exists ((str ++ sp) ++ ","), (udev_rules w).
        rewrite set_udev_rules_same. split; [reflexivity | exact Hu].
      * unfold bind, asserted. now rewrite (no_specifier_aborts str nd Hs).
Qed.

Lemma foreach_outcomes (netdefs : GHashTable net_definition) :
  forall str w, udev_rules w <> GFreed ->
  (exists str' p, g_hash_table_foreach netdefs nd_append_non_nm_ids str w
                  = Done str' (set_udev_rules p w)
                  /\ p <> GFreed /\ graph_ok netdefs)
  \/ (exists p, g_hash_table_foreach netdefs nd_append_non_nm_ids str w
                = Aborted (set_udev_rules p w)
                /\ ~ graph_ok netdefs).
Proof.
  induction netdefs as [| [key nd] rest IH]; intros str w Hu.
  - left. exists str, (udev_rules w). rewrite set_udev_rules_same.
    repeat split; [exact Hu | constructor].
  - cbn [g_hash_table_foreach]. unfold bind.
    pose proof (nd_append_step key nd str w Hu) as Hstep.
    destruct (excludable nd) eqn:Hex.
    + destruct Hstep as (str' & p & -> & Hp).
      destruct (IH str' (set_udev_rules p w) Hp) as
          [(str'' & p' & -> & Hp' & Hok) | (p' & -> & Hnok)].
      * left. exists str'', p'. repeat split; [exact Hp' | now constructor].
      * right. exists p'. split; [reflexivity |].
        intros H. inversion H; subst. now apply Hnok.
    + rewrite Hstep. right. exists (udev_rules w). rewrite set_udev_rules_same.
      split; [reflexivity |]. intros H. inversion H; subst. cbn in *. congruence.
Qed.

Lemma finish_aborts (netdefs : GHashTable net_definition)
        (key : string) (nd : net_definition) (rootdir : option string) (w : world) :
  In (key, nd) netdefs ->
  excludable nd = false ->
  udev_rules w <> GFreed ->
  exists w',
    write_nm_conf_finish netdefs rootdir w = Aborted w'
    /\ w_files w' = w_files w
    /\ w_umask w' = w_umask w.
Proof.
  intros Hin Hex Hu. unfold write_nm_conf_finish.
  destruct netdefs as [| kv rest] eqn:E; [destruct Hin |]. rewrite <- E in *.
  replace (g_hash_table_size netdefs =? 0)%nat with false by (rewrite E; reflexivity).
  cbv zeta. unfold bind at 1.
  destruct (foreach_outcomes netdefs keyfile_header w Hu) as
      [(str' & p & _ & _ & Hok) | (p & -> & _)].
  - exfalso. unfold graph_ok in Hok. rewrite Forall_forall in Hok.
    specialize (Hok _ Hin). cbn in Hok. congruence.
  - eexists. split; [reflexivity |]. split; reflexivity.
Qed.

(** X17: a graph that holds one definition of another backend without
    driver match for which the encoder has no specifier (a wifi one
    without any match, say) stops the finisher at an assertion: no
    aggregate file is written, for none of the definitions, and the mask
    is as before. *)
Theorem finish_aborts_on_unencodable (netdefs : GHashTable net_definition)
        (key : string) (nd : net_definition) (rootdir : option string) (w : world) :
  In (key, nd) netdefs ->
  excludable nd = false ->
  udev_rules w <> GFreed ->
  exists w',
    write_nm_conf_finish netdefs rootdir w = Aborted w'
    /\ w_files w' = w_files w
    /\ w_umask w' = w_umask w.
Proof.
  exact (finish_aborts netdefs key nd rootdir w).
Qed.

Lemma finish_aborts_on_unencodable_witness :
  exists w',
    write_nm_conf_finish [("eth0", eth0_networkd); ("wlan0", wlan_networkd)]
                         None fresh_world = Aborted w'
    /\ w_files w' = []
    /\ w_umask w' = 18.
Proof.
  apply (finish_aborts_on_unencodable _ "wlan0" wlan_networkd None fresh_world).
  - right. left. reflexivity.
  - reflexivity.
  - discriminate.
Defined.

(** X18: started with no rules collected and on a writable file system,
    the finisher returns exactly when every definition of the graph is
    ours, or has a driver match, or has a specifier. *)
Theorem finish_returns_iff (netdefs : GHashTable net_definition)
        (rootdir : option string) (w : world) :
  udev_rules w = GNull ->
  all_writable rootdir w ->
  (exists w', write_nm_conf_finish netdefs rootdir w = Done tt w')
  <-> graph_ok netdefs.
Proof.
  intros Hu Hw. split.
  - intros [w' Hrun].
    destruct (Forall_Exists_dec (fun kv : string * net_definition =>
                                   excludable (snd kv) = true)
                (fun kv => bool_dec (excludable (snd kv)) true) netdefs)
      as [Hok | Hex]; [exact Hok |].
    apply Exists_exists in Hex as ([key nd] & Hin & Hno). cbn in Hno.
    apply not_true_is_false in Hno.
    destruct (finish_aborts netdefs key nd rootdir w Hin Hno)
      as (w'' & Habort & _); [rewrite Hu; discriminate |].
    congruence.
  - intros Hok.
    destruct (finish_refines netdefs rootdir w Hok Hu Hw) as (w' & Hrun & _).
    now exists w'.
Qed.

Lemma finish_returns_iff_witness :
  (exists w', write_nm_conf_finish graph_mixed None fresh_world = Done tt w')
  <-> graph_ok graph_mixed.
Proof.
  apply (finish_returns_iff graph_mixed None fresh_world).
  - reflexivity.
  - intros path. reflexivity.
Defined.

(** X19: when every definition of the graph is ours and no rule was
    collected before, the finisher returns without writing anything,
    whether the file system is writable or not. *)
Theorem finish_all_ours (netdefs : GHashTable net_definition)
        (rootdir : option string) (w : world) :
  Forall (fun kv => backend (snd kv) = BACKEND_NM) netdefs ->
  udev_rules w = GNull ->
  write_nm_conf_finish netdefs rootdir w = Done tt w.
Proof.
  intros Hall Hu. unfold write_nm_conf_finish.
  destruct (g_hash_table_size netdefs =? 0)%nat; [reflexivity |].
  cbv zeta. unfold bind at 1.
  assert (Hwalk : forall str, g_hash_table_foreach netdefs nd_append_non_nm_ids str w
                              = Done str w).
  { induction Hall as [| [key nd] rest Hnd _ IH]; intros str; [reflexivity |].
    cbn [g_hash_table_foreach]. unfold bind at 1, nd_append_non_nm_ids.
    cbn [snd] in Hnd. rewrite Hnd. cbn [is_BACKEND_NM negb]. unfold ret. apply IH. }
  rewrite Hwalk. unfold bind at 1. rewrite Nat.ltb_irrefl. unfold ret.
  now rewrite Hu.
Qed.

Lemma finish_all_ours_witness :
  write_nm_conf_finish [("wlan0", wlan0_nm); ("eth0", eth_plain)] None read_only_world
  = Done tt read_only_world.
Proof.
  apply (finish_all_ours _ None read_only_world).
  - repeat constructor.
  - reflexivity.
Defined.

(** X20: the finisher has no diagnostic and no [exit] of its own:
    whatever the graph, it returns, or stops at an assertion, or fails in
    the writer; when it returns, the diagnostics and the mask are as
    before; when it stops at an assertion, the files and the mask are. *)
Theorem finish_no_diagnostic (netdefs : GHashTable net_definition)
        (rootdir : option string) (w : world) :
  udev_rules w <> GFreed ->
  match write_nm_conf_finish netdefs rootdir w with
  | Done _ w' => w_stderr w' = w_stderr w /\ w_umask w' = w_umask w
  | Aborted w' => w_files w' = w_files w /\ w_umask w' = w_umask w
  | IOFailed _ => True
  | Exited _ _ => False
  | Undefined => False
  end.
Proof.
  intros Hu. unfold write_nm_conf_finish.
  destruct (g_hash_table_size netdefs =? 0)%nat; [now split |].
  cbv zeta. unfold bind at 1.
  destruct (foreach_outcomes netdefs keyfile_header w Hu) as
      [(str' & p & -> & Hp & _) | (p & -> & _)]; [| now split].
  unfold bind at 1, g_string_free_to_file, ret.
  repeat (cbn [w_writable set_udev_rules w_umask w_files udev_rules add_file w_stderr];
          match goal with
          | |- context [if ?b then _ else _] => destruct b
          | |- context [match ?q with GNull => _ | GLive _ => _ | GFreed => _ end] =>
            destruct q
          end);
    cbn [w_writable set_udev_rules w_umask w_files udev_rules add_file w_stderr];
    try congruence; try exact I; now split.
Qed.

Lemma finish_no_diagnostic_witness :
  match write_nm_conf_finish graph_mixed None fresh_world with
  | Done _ w' => w_stderr w' = w_stderr fresh_world
                 /\ w_umask w' = w_umask fresh_world
  | Aborted w' => w_files w' = w_files fresh_world
                  /\ w_umask w' = w_umask fresh_world
  | IOFailed _ => True
  | Exited _ _ => False
  | Undefined => False
  end.
Proof.
  apply (finish_no_diagnostic graph_mixed None fresh_world). discriminate.
Defined.

Lemma specifier_of_spec (nd : net_definition) (sp : string) :
  In sp (specifier_of nd)
  <-> foreign nd = true /\ driver (nd_match nd) = None
      /\ g_string_append_netdef_match "" nd = Some sp.
Proof.
  unfold specifier_of, foreign.
  destruct (is_BACKEND_NM (backend nd)); cbn [negb].
  - split; [intros [] | intros [H _]; discriminate].
  - destruct (driver (nd_match nd)).
    + split; [intros [] | intros (_ & H & _); discriminate].
    + destruct (g_string_append_netdef_match "" nd) as [x |].
      * split.
        -- intros [<- | []]. repeat split.
        -- intros (_ & _ & [= ->]). now left.
      * split; [intros [] | intros (_ & _ & H); discriminate].
Qed.

Lemma driver_of_spec (nd : net_definition) (drv : string) :
  In drv (driver_of nd)
  <-> foreign nd = true /\ driver (nd_match nd) = Some drv.
Proof.
  unfold driver_of, foreign.
  destruct (is_BACKEND_NM (backend nd)); cbn [negb].
  - split; [intros [] | intros [H _]; discriminate].
  - destruct (driver (nd_match nd)) as [d |].
    + split.
      * intros [<- | []]. now split.
      * intros (_ & [= ->]). now left.
    + split; [intros [] | intros (_ & H); discriminate].
Qed.

Lemma exclusion_count (nd : net_definition) :
  excludable nd = true ->
  (length (specifier_of nd) + length (driver_of nd))%nat
  = if foreign nd then 1%nat else 0%nat.
Proof.
  unfold excludable, specifier_of, driver_of, foreign.
  destruct (is_BACKEND_NM (backend nd)); cbn [negb orb]; [reflexivity |].
  destruct (driver (nd_match nd)) eqn:Hd; cbn [is_set orb]; [reflexivity |].
  intros Hs. destruct (has_specifier_encodes nd Hd Hs) as [sp ->]. reflexivity.
Qed.

(** X21: the walk over a graph whose definitions can all be excluded
    leaves in the buffer and in the rules exactly the definitions of the
    other backends, each one once: the specifiers appended, each
    followed by a comma, are those of the foreign definitions without
    driver match, the rule lines appended are those of the drivers of the
    foreign definitions with one, and together they are as many as there
    are foreign definitions. *)
Theorem every_foreign_definition_excluded (netdefs : GHashTable net_definition)
        (str : string) (w : world) :
  graph_ok netdefs ->
  udev_rules w <> GFreed ->
  exists specs drvs,
    g_hash_table_foreach netdefs nd_append_non_nm_ids str w
    = Done (str ++ comma_terminated specs)
           (set_udev_rules (with_rules (udev_rules w) drvs) w)
    /\ (length specs + length drvs
        = length (filter (fun kv => foreign (snd kv)) netdefs))%nat
    /\ (forall sp, In sp specs <->
          exists key nd, In (key, nd) netdefs /\ foreign nd = true
                         /\ driver (nd_match nd) = None
                         /\ g_string_append_netdef_match "" nd = Some sp)
    /\ (forall drv, In drv drvs <->
          exists key nd, In (key, nd) netdefs /\ foreign nd = true
                         /\ driver (nd_match nd) = Some drv).
Proof.
  intros Hok Hu.
  exists (specifier_set (arbitrate netdefs)), (device_rules (arbitrate netdefs)).
  split; [now apply foreach_collects |].
  unfold arbitrate; cbn [specifier_set device_rules].
  split; [| split].
  - induction Hok as [| [key nd] rest Hnd _ IH]; [reflexivity |].
    cbn [flat_map filter snd] in *. rewrite !length_app.
    pose proof (exclusion_count nd Hnd) as Hc.
    destruct (foreign nd); cbn [length]; lia.
  - intros sp. rewrite in_flat_map. split.
    + intros ([key nd] & Hin & Hsp). apply specifier_of_spec in Hsp.
      now exists key, nd.
    + intros (key & nd & Hin & Hsp). exists (key, nd). split; [exact Hin |].
      now apply specifier_of_spec.
  - intros drv. rewrite in_flat_map. split.
    + intros ([key nd] & Hin & Hd). apply driver_of_spec in Hd.
      now exists key, nd.
    + intros (key & nd & Hin & Hd). exists (key, nd). split; [exact Hin |].
      now apply driver_of_spec.
Qed.

Lemma every_foreign_definition_excluded_witness :
  exists specs drvs,
    g_hash_table_foreach graph_mixed nd_append_non_nm_ids keyfile_header fresh_world
    = Done (keyfile_header ++ comma_terminated specs)
           (set_udev_rules (with_rules (udev_rules fresh_world) drvs) fresh_world)
    /\ (length specs + length drvs
        = length (filter (fun kv => foreign (snd kv)) graph_mixed))%nat
    /\ (forall sp, In sp specs <->
          exists key nd, In (key, nd) graph_mixed /\ foreign nd = true
                         /\ driver (nd_match nd) = None
                         /\ g_string_append_netdef_match "" nd = Some sp)
    /\ (forall drv, In drv drvs <->
          exists key nd, In (key, nd) graph_mixed /\ foreign nd = true
                         /\ driver (nd_match nd) = Some drv).
Proof.
  apply (every_foreign_definition_excluded graph_mixed keyfile_header fresh_world).
  - repeat constructor.
  - discriminate.
Defined.

(** X22: on a graph whose definitions can all be excluded, the finisher
    writes nothing but the two aggregate files (every file it adds is at
    the conf.d path or at the rules.d path) and each at most once: the
    unmanaged-devices file exactly when some definition of another
    backend has no driver match, the rules file exactly when some
    definition of another backend has one. *)
Theorem finish_files_iff (netdefs : GHashTable net_definition)
        (rootdir : option string) (w : world) :
  graph_ok netdefs ->
  udev_rules w = GNull ->
  all_writable rootdir w ->
  exists w' new,
    write_nm_conf_finish netdefs rootdir w = Done tt w'
    /\ w_files w' = (w_files w ++ new)%list
    /\ (forall a, In a new ->
        a_path a = "run/NetworkManager/conf.d/ubuntu-network.conf"
        \/ a_path a = "run/udev/rules.d/90-ubuntu-network.rules")
    /\ NoDup (map a_path new)
    /\ (In conf_d_path (map a_path new) <->
        exists key nd, In (key, nd) netdefs /\ foreign nd = true
                       /\ driver (nd_match nd) = None)
    /\ (In rules_d_path (map a_path new) <->
        exists key nd drv, In (key, nd) netdefs /\ foreign nd = true
                           /\ driver (nd_match nd) = Some drv).
Proof.
  intros Hok Hu Hw.
  destruct (finish_refines netdefs rootdir w Hok Hu Hw) as (w' & Hrun & Hfiles & _).
  exists w', (finish rootdir (w_umask w) (arbitrate netdefs)).
  split; [exact Hrun |]. split; [exact Hfiles |].
  split.
  { unfold finish. intros a Ha.
    destruct (specifier_set (arbitrate netdefs)), (device_rules (arbitrate netdefs));
      cbn in Ha; intuition (subst; cbn; auto). }
  assert (Hspecs : specifier_set (arbitrate netdefs) <> [] <->
                   exists key nd, In (key, nd) netdefs /\ foreign nd = true
                                  /\ driver (nd_match nd) = None).
  { unfold arbitrate; cbn [specifier_set]. split.
    - intros Hne. destruct (flat_map _ netdefs) as [| sp sps] eqn:E; [congruence |].
      assert (Hin : In sp (flat_map (fun kv => specifier_of (snd kv)) netdefs))
        by (rewrite E; now left).
      apply in_flat_map in Hin as ([key nd] & Hin & Hsp).
      apply specifier_of_spec in Hsp as (Hf & Hd & _). now exists key, nd.
    - intros (key & nd & Hin & Hf & Hd) Hnil.
      unfold graph_ok in Hok. rewrite Forall_forall in Hok.
      specialize (Hok _ Hin). cbn [snd] in Hok.
      assert (Hnm : is_BACKEND_NM (backend nd) = false)
        by (unfold foreign in Hf; now apply negb_true_iff in Hf).
      unfold excludable in Hok. rewrite Hnm, Hd in Hok. cbn in Hok.
      destruct (has_specifier_encodes nd Hd Hok) as [sp Hsp].
      assert (Hin' : In sp (flat_map (fun kv => specifier_of (snd kv)) netdefs)).
      { apply in_flat_map. exists (key, nd). split; [exact Hin |].
        apply specifier_of_spec. repeat split; auto. }
      rewrite Hnil in Hin'. destruct Hin'. }
  assert (Hdrvs : device_rules (arbitrate netdefs) <> [] <->
                  exists key nd drv, In (key, nd) netdefs /\ foreign nd = true
                                     /\ driver (nd_match nd) = Some drv).
  { unfold arbitrate; cbn [device_rules]. split.
    - intros Hne. destruct (flat_map _ netdefs) as [| d ds] eqn:E; [congruence |].
      assert (Hin : In d (flat_map (fun kv => driver_of (snd kv)) netdefs))
        by (rewrite E; now left).
      apply in_flat_map in Hin as ([key nd] & Hin & Hd).
      apply driver_of_spec in Hd as (Hf & Hd). now exists key, nd, d.
    - intros (key & nd & drv & Hin & Hf & Hd) Hnil.
      assert (Hin' : In drv (flat_map (fun kv => driver_of (snd kv)) netdefs)).
      { apply in_flat_map. exists (key, nd). split; [exact Hin |].
        now apply driver_of_spec. }
      rewrite Hnil in Hin'. destruct Hin'. }
  unfold finish.
  destruct (specifier_set (arbitrate netdefs)) as [| sp sps];
    destruct (device_rules (arbitrate netdefs)) as [| d ds];
    cbn [app map a_path]; (split; [| split]).
  all: try (repeat constructor; cbn; intuition discriminate).
  all: try (split; [intros [] | intros H; apply Hspecs in H; congruence]).
  all: try (split; [intros [] | intros H; apply Hdrvs in H; congruence]).
  all: try (split; [intros _; apply Hspecs; discriminate | intros _; now left]).
  all: try (split; [intros _; apply Hdrvs; discriminate | intros _; now left]).
  all: try (split; [intros [H | []]; discriminate H
                   | intros H; apply Hspecs in H; congruence]).
  all: try (split; [intros [H | []]; discriminate H
                   | intros H; apply Hdrvs in H; congruence]).
  all: try (split; [intros _; apply Hdrvs; discriminate | intros _; right; now left]).
Qed.

Lemma finish_files_iff_witness :
  exists w' new,
    write_nm_conf_finish graph_mixed None fresh_world = Done tt w'
    /\ w_files w' = (w_files fresh_world ++ new)%list
    /\ (forall a, In a new ->
        a_path a = "run/NetworkManager/conf.d/ubuntu-network.conf"
        \/ a_path a = "run/udev/rules.d/90-ubuntu-network.rules")
    /\ NoDup (map a_path new)
    /\ (In conf_d_path (map a_path new) <->
        exists key nd, In (key, nd) graph_mixed /\ foreign nd = true
                       /\ driver (nd_match nd) = None)
    /\ (In rules_d_path (map a_path new) <->
        exists key nd drv, In (key, nd) graph_mixed /\ foreign nd = true
                           /\ driver (nd_match nd) = Some drv).
Proof.
  apply (finish_files_iff graph_mixed None fresh_world).
  - repeat constructor.
  - reflexivity.
  - intros path. reflexivity.
Defined.
